(** * Moltbot gateway supervision and R2 persistence

    A shallow embedding of the gateway modules of the moltworker
    repository and the properties of its three operations:
    [mountR2Storage], [ensureMoltbotGateway] and [syncToR2].

    The repository holds the logic in several variants.  The layout of
    this development follows them:

    - [Gateway]   : the full variant (second document of
                    src/unnamed/part_000, lines 90-298), with the private
                    boolean [mountR2Storage], the verified launch and the
                    mount-checking sync;
    - [GatewayV1] : the short variant (first document of
                    src/unnamed/part_000, lines 1-89);
    - [R2]        : the standalone src/gateway/r2.ts.

    The sandbox (command executor, process registry, volume mounter) is
    an external collaborator: it is a record of arbitrary state
    transformers over an abstract world, and every theorem quantifies
    over it.  A run leaves behind the final world, the calls made to
    the sandbox with their answers, the console, and a normal or
    exceptional completion.

    The properties are stated on the full module; where the short
    module or r2.ts behave otherwise, the code is evaluated on an
    explicit sandbox to show it. *)

From Stdlib Require Import String Ascii List ZArith Bool Lia.
From stdpp Require Import base option list gmap strings.

Import ListNotations.


(** ** JavaScript string primitives used by the source *)

Module JS.

(** [s.includes(needle)]: [needle] occurs in [s] as a substring. *)
Fixpoint includes (s needle : string) : bool :=
  if String.prefix needle s then true
  else match s with
       | EmptyString => false
       | String _ s' => includes s' needle
       end.

(** Truthiness of a string: only the empty string is falsy. *)
Definition truthy (s : string) : bool :=
  match s with
  | EmptyString => false
  | String _ _ => true
  end.

(** Truthiness of an optional string ([string | undefined]). *)
Definition truthy_opt (o : option string) : bool :=
  match o with
  | Some s => truthy s
  | None => false
  end.

(** Truthiness of an optional object handle: any object is truthy. *)
Definition defined {A : Type} (o : option A) : bool :=
  match o with
  | Some _ => true
  | None => false
  end.

(** [o?.f(...)] used as a condition: [undefined] is falsy. *)
Definition opt_test {A : Type} (o : option A) (f : A -> bool) : bool :=
  match o with
  | Some a => f a
  | None => false
  end.

(** What JavaScript can throw: [new Error(message)]; an instance of a
    subclass of [Error] ([TypeError], [RangeError], ...), with the
    [name] of its class and its message; or any other value, given by
    the text [String(value)]. *)
Inductive exn : Type :=
| Error (message : string)
| ErrorOf (name : string) (message : string)
| Thrown (value : string).

(** [error instanceof Error ? error.message : 'Unknown error'] *)
Definition message_of (e : exn) : string :=
  match e with
  | Error m => m
  | ErrorOf _ m => m
  | Thrown _ => "Unknown error"
  end.

(** The line feed. *)
Definition newline : string := String (Ascii.ascii_of_nat 10) EmptyString.

(** How an awaited call completes. *)
Inductive Completion (A : Type) : Type :=
| Normal (a : A)
| Throw (e : exn).
Arguments Normal {A} a.
Arguments Throw {A} e.

End JS.
Export JS.

(** ** The sandbox and the configuration *)

Module Sandbox.

(** An entry of the process registry.  [command] and [args] are read
    through optional chaining in the source, hence optional here. *)
Record Process : Type := mkProcess {
  pid : Z;
  command : option string;
  args : option (list string);
  status : string
}.

(** The result of [sandbox.exec]. *)
Record ExecResult : Type := mkExecResult {
  stdout : string;
  stderr : string;
  exitCode : Z
}.

(** The argument of [sandbox.startProcess]. *)
Record StartOptions : Type := mkStartOptions {
  so_command : list string;
  so_env : gmap string string;
  so_workingDirectory : option string
}.

(** Arguments of the console calls that follow the message. *)
Inductive LogArg : Type :=
| ArgNum (z : Z)
| ArgStr (s : string)
| ArgExn (e : exn).

Inductive LogLine : Type :=
| ConsoleLog (msg : string) (rest : list LogArg)
| ConsoleError (msg : string) (rest : list LogArg).

Section WithWorld.
(** [W] is the state of the environment (file system, mount table,
    process table, clock); [R2Bucket] is the type of the bucket
    binding, whose declaration (types.ts) is not part of the
    sources at hand. *)
Context {W R2Bucket : Type}.

(** The MoltbotEnv fields the gateway code reads. *)
Record MoltbotEnv : Type := mkEnv {
  MOLTBOT_BUCKET : option R2Bucket;
  R2_BUCKET_NAME : option string;
  ANTHROPIC_API_KEY : option string;
  OPENAI_API_KEY : option string;
  MOLTBOT_GATEWAY_TOKEN : option string
}.

(** The collaborators.  Each call transforms the world and either
    returns or throws.  [setTimeout] is the passage of time, during
    which the world evolves on its own; [now] is
    [new Date().toISOString()]. *)
Record Sandbox : Type := mkSandbox {
  exec : string -> W -> W * Completion ExecResult;
  listProcesses : W -> W * Completion (list Process);
  mountBucket : R2Bucket -> string -> bool -> W -> W * Completion unit;
  startProcess : StartOptions -> W -> W * Completion Process;
  setTimeout : Z -> W -> W;
  now : W -> string
}.

(** One interaction with a collaborator, with its answer. *)
Inductive Event : Type :=
| EvExec (cmd : string) (r : Completion ExecResult)
| EvListProcesses (r : Completion (list Process))
| EvMountBucket (b : R2Bucket) (path : string) (readOnly : bool)
                (r : Completion unit)
| EvStartProcess (opts : StartOptions) (r : Completion Process)
| EvTimeout (ms : Z).

(** What a run leaves behind: the final world, the collaborator
    calls in order, the console, and how it completed. *)
Record Outcome (A : Type) : Type := mkOutcome {
  final : W;
  calls : list Event;
  console : list LogLine;
  result : Completion A
}.
Arguments mkOutcome {A}.
Arguments final {A}.
Arguments calls {A}.
Arguments console {A}.
Arguments result {A}.

(** Asynchronous code, awaited in sequence. *)
Definition M (A : Type) : Type := W -> Outcome A.

Definition ret {A} (a : A) : M A :=
  fun w => mkOutcome w [] [] (Normal a).

Definition throw {A} (e : exn) : M A :=
  fun w => mkOutcome w [] [] (Throw e).

(** The outcome [o] of a continuation, after the calls [cs] and
    the console lines [ls] that came before it. *)
Definition after {A} (cs : list Event) (ls : list LogLine)
    (o : Outcome A) : Outcome A :=
  match o with
  | mkOutcome w cs' ls' r => mkOutcome w (cs ++ cs') (ls ++ ls') r
  end.

Definition bind {A B} (m : M A) (f : A -> M B) : M B :=
  fun w =>
    match m w with
    | mkOutcome w' cs ls (Normal a) => after cs ls (f a w')
    | mkOutcome w' cs ls (Throw e) => mkOutcome w' cs ls (Throw e)
    end.

(** [try { m } catch (error) { h error }] *)
Definition try_catch {A} (m : M A) (h : exn -> M A) : M A :=
  fun w =>
    match m w with
    | mkOutcome w' cs ls (Normal a) => mkOutcome w' cs ls (Normal a)
    | mkOutcome w' cs ls (Throw e) => after cs ls (h e w')
    end.

Definition console_log (msg : string) (rest : list LogArg) : M unit :=
  fun w => mkOutcome w [] [ConsoleLog msg rest] (Normal tt).

Definition console_error (msg : string) (rest : list LogArg) : M unit :=
  fun w => mkOutcome w [] [ConsoleError msg rest] (Normal tt).

Section Calls.
Variable sandbox : Sandbox.

Definition call_exec (cmd : string) : M ExecResult :=
  fun w =>
    match exec sandbox cmd w with
    | (w', r) => mkOutcome w' [EvExec cmd r] [] r
    end.

Definition call_listProcesses : M (list Process) :=
  fun w =>
    match listProcesses sandbox w with
    | (w', r) => mkOutcome w' [EvListProcesses r] [] r
    end.

Definition call_mountBucket (b : R2Bucket) (path : string)
    (readOnly : bool) : M unit :=
  fun w =>
    match mountBucket sandbox b path readOnly w with
    | (w', r) => mkOutcome w' [EvMountBucket b path readOnly r] [] r
    end.

Definition call_startProcess (opts : StartOptions) : M Process :=
  fun w =>
    match startProcess sandbox opts w with
    | (w', r) => mkOutcome w' [EvStartProcess opts r] [] r
    end.

(** [await new Promise(resolve => setTimeout(resolve, ms))] *)
Definition sleep (ms : Z) : M unit :=
  fun w => mkOutcome (setTimeout sandbox ms w) [EvTimeout ms] [] (Normal tt).

(** [new Date().toISOString()] *)
Definition date_now : M string :=
  fun w => mkOutcome w [] [] (Normal (now sandbox w)).
End Calls.

(** *** Observations on the trace of calls *)

Definition threw {A} (r : Completion A) : bool :=
  match r with
  | Normal _ => false
  | Throw _ => true
  end.

(** The call raised an exception. *)
Definition raised (ev : Event) : bool :=
  match ev with
  | EvExec _ r => threw r
  | EvListProcesses r => threw r
  | EvMountBucket _ _ _ r => threw r
  | EvStartProcess _ r => threw r
  | EvTimeout _ => false
  end.

Definition is_exec (ev : Event) : bool :=
  match ev with EvExec _ _ => true | _ => false end.

Definition is_mountBucket (ev : Event) : bool :=
  match ev with EvMountBucket _ _ _ _ => true | _ => false end.

Definition is_startProcess (ev : Event) : bool :=
  match ev with EvStartProcess _ _ => true | _ => false end.

(** The call runs the copy tool. *)
Definition is_copy (ev : Event) : bool :=
  match ev with
  | EvExec cmd _ => includes cmd "rsync"
  | _ => false
  end.

Definition count (p : Event -> bool) (l : list Event) : nat :=
  length (List.filter p l).

End WithWorld.

Arguments MoltbotEnv : clear implicits.
Arguments Sandbox : clear implicits.
Arguments Event : clear implicits.
Arguments Outcome : clear implicits.
Arguments M : clear implicits.
Arguments mkOutcome {W R2Bucket A}.
Arguments final {W R2Bucket A}.
Arguments calls {W R2Bucket A}.
Arguments console {W R2Bucket A}.
Arguments result {W R2Bucket A}.

End Sandbox.
Export Sandbox.

#[global] Instance M_ret {W R2Bucket} : MRet (M W R2Bucket) := @ret W R2Bucket.
#[global] Instance M_bind {W R2Bucket} : MBind (M W R2Bucket) :=
  fun A B f m => bind m f.

(** ** The full gateway module (src/unnamed/part_000, lines 90-298) *)

Module Gateway.

(** [const MOLTBOT_PORT = 18789;] *)
Definition MOLTBOT_PORT : Z := 18789.

(** What [findExistingMoltbotProcess] returns when it finds a process. *)
Record Found : Type := mkFound {
  found_pid : Z;
  found_status : string
}.

(** The result of [syncToR2]. *)
Record SyncResult : Type := mkSyncResult {
  success : bool;
  error : option string;
  details : option string;
  lastSync : option string
}.

(** The predicate passed to [processes.find] (lines 107-111). *)
Definition isMoltbotProcess (p : Process) : bool :=
  opt_test (command p) (fun c => includes c "start-openclaw.sh")
  || opt_test (command p) (fun c => includes c "openclaw")
  || opt_test (args p) (existsb (fun arg => includes arg "openclaw")).

(** [existing && existing.status === 'running'] *)
Definition isRunning (existing : option Found) : bool :=
  match existing with
  | Some f => String.eqb (found_status f) "running"
  | None => false
  end.

(** [if (value) { obj[key] = value; }] *)
Definition set_if_truthy (key : string) (value : option string)
    (obj : gmap string string) : gmap string string :=
  match value with
  | Some v => if truthy v then <[key := v]> obj else obj
  | None => obj
  end.

Definition dquote : string := String (Ascii.ascii_of_nat 34) EmptyString.

(** ['mount | grep /data/moltbot || echo "not mounted"'] *)
Definition mountCheckCommand : string :=
  "mount | grep /data/moltbot || echo " +:+ dquote +:+ "not mounted" +:+ dquote.

Definition rsyncCommand : string :=
  "rsync -av --delete /root/.openclaw/ /data/moltbot/openclaw/ 2>&1".

Definition launcher : list string := ["/usr/local/bin/start-openclaw.sh"].

Section WithSandbox.
Context {W R2Bucket : Type}.
Variable sandbox : Sandbox W R2Bucket.

Abbreviation M := (M W R2Bucket).
Abbreviation MoltbotEnv := (MoltbotEnv R2Bucket).

(** Lines 102-124. *)
Definition findExistingMoltbotProcess : M (option Found) :=
  try_catch
    (processes ← call_listProcesses sandbox;
     match find isMoltbotProcess processes with
     | Some moltbotProcess =>
         mret (Some (mkFound (pid moltbotProcess) (status moltbotProcess)))
     | None => mret None
     end)
    (fun error =>
       console_error "[GATEWAY] Error listing processes:" [ArgExn error];;
       mret None).

(** Lines 129-159. *)
Definition mountR2Storage (env : MoltbotEnv) : M bool :=
  match truthy_opt (R2_BUCKET_NAME env), MOLTBOT_BUCKET env with
  | true, Some bucket =>
      try_catch
        (console_log "[R2] Setting up R2 persistent storage..." [];;
         call_exec sandbox "mkdir -p /data/moltbot";;
         call_exec sandbox "chmod 777 /data/moltbot";;
         call_mountBucket sandbox bucket "/data/moltbot" false;;
         console_log "[R2] R2 bucket mounted successfully at /data/moltbot" [];;
         call_exec sandbox "mkdir -p /data/moltbot/openclaw";;
         call_exec sandbox "ln -sf /data/moltbot/openclaw /root/.openclaw";;
         call_exec sandbox "ln -sf /data/moltbot/openclaw /root/clawd/data";;
         mret true)
        (fun error =>
           console_error "[R2] Failed to mount R2 storage:" [ArgExn error];;
           mret false)
  | _, _ =>
      console_log "[R2] R2 configuration missing, using ephemeral storage" [];;
      mret false
  end.

(** The object built at lines 186-203. *)
Definition openclawEnv (env : MoltbotEnv) : gmap string string :=
  let base : gmap string string :=
    <["HOME" := "/root"]>
      (<["PATH" := "/usr/local/bin:/usr/bin:/bin"]>
         (<["NODE_ENV" := "production"]> ∅)) in
  set_if_truthy "OPENCLAW_GATEWAY_TOKEN" (MOLTBOT_GATEWAY_TOKEN env)
    (set_if_truthy "OPENAI_API_KEY" (OPENAI_API_KEY env)
       (set_if_truthy "ANTHROPIC_API_KEY" (ANTHROPIC_API_KEY env) base)).

(** The argument of [sandbox.startProcess] (lines 206-210). *)
Definition launchOptions (env : MoltbotEnv) : StartOptions :=
  mkStartOptions launcher (openclawEnv env) (Some "/root/clawd").

(** Lines 164-229. *)
Definition ensureMoltbotGateway (env : MoltbotEnv) : M unit :=
  existing ← findExistingMoltbotProcess;
  if isRunning existing then
    console_log "[GATEWAY] Moltbot already running with PID:"
      (match existing with Some f => [ArgNum (found_pid f)] | None => [] end);;
    mret tt
  else
    try_catch
      (r2Mounted ← mountR2Storage env;
       (if negb r2Mounted
        then console_log "[GATEWAY] Using ephemeral storage (R2 not available)" []
        else mret tt);;
       console_log "[GATEWAY] Starting Moltbot gateway..." [];;
       proc ← call_startProcess sandbox (launchOptions env);
       console_log "[GATEWAY] Moltbot gateway started with PID:" [ArgNum (pid proc)];;
       sleep sandbox 2000;;
       verify ← findExistingMoltbotProcess;
       if negb (isRunning verify) then
         throw (Error "Gateway failed to start")
       else
         console_log "[GATEWAY] Gateway successfully started and verified" [])
      (fun error =>
         console_error "[GATEWAY] Failed to start Moltbot:" [ArgExn error];;
         throw error).

Definition notConfigured : SyncResult :=
  mkSyncResult false (Some "R2 storage is not configured")
               (Some "Missing R2_BUCKET_NAME environment variable") None.

Definition notMounted : SyncResult :=
  mkSyncResult false (Some "R2 storage not mounted")
               (Some "Failed to mount R2 bucket") None.

Definition syncFailed (details : string) : SyncResult :=
  mkSyncResult false (Some "Sync failed") (Some details) None.

(** [syncResult.stderr && !syncResult.stderr.includes(...)] (line 273) *)
Definition isRsyncError (syncResult : ExecResult) : bool :=
  truthy (stderr syncResult)
  && negb (includes (stderr syncResult) "sending incremental file list").

(** The statements of [syncToR2] after the mount check (lines 264-288). *)
Definition backup : M SyncResult :=
  call_exec sandbox "mkdir -p /root/.openclaw";;
  call_exec sandbox "mkdir -p /data/moltbot/openclaw";;
  syncResult ← call_exec sandbox rsyncCommand;
  if isRsyncError syncResult then
    console_error "[SYNC] Rsync error:" [ArgStr (stderr syncResult)];;
    mret (syncFailed (stderr syncResult))
  else
    console_log "[SYNC] R2 backup completed successfully" [];;
    console_log "[SYNC] Output:" [ArgStr (stdout syncResult)];;
    lastSync ← date_now sandbox;
    mret (mkSyncResult true None None (Some lastSync)).

(** Lines 234-298. *)
Definition syncToR2 (env : MoltbotEnv) : M SyncResult :=
  try_catch
    (console_log "[SYNC] Starting R2 backup sync..." [];;
     if negb (truthy_opt (R2_BUCKET_NAME env)) then
       mret notConfigured
     else
       check ← call_exec sandbox mountCheckCommand;
       if includes (stdout check) "not mounted" then
         mounted ← mountR2Storage env;
         if negb mounted then mret notMounted else backup
       else backup)
    (fun error =>
       console_error "[SYNC] Backup sync failed:" [ArgExn error];;
       mret (syncFailed (message_of error))).

End WithSandbox.

End Gateway.

(** ** The short gateway module (src/unnamed/part_000, lines 1-89) *)

Module GatewayV1.

Record Found : Type := mkFound {
  found_pid : Z;
  found_status : string
}.

(** [{ success: boolean; error?: string }] *)
Record SyncResult : Type := mkSyncResult {
  success : bool;
  error : option string
}.

(** The predicate passed to [processes.find] (lines 18-20). *)
Definition isMoltbotProcess (p : Process) : bool :=
  opt_test (command p) (fun c => includes c "openclaw").

Definition isRunning (existing : option Found) : bool :=
  match existing with
  | Some f => String.eqb (found_status f) "running"
  | None => false
  end.

(** [value || ''] *)
Definition or_empty (value : option string) : string :=
  match value with
  | Some v => if truthy v then v else ""
  | None => ""
  end.

(** [String(error)].  For an error object this is
    [Error.prototype.toString]: the message alone when the name is
    empty, the name alone when the message is empty, and
    [name + ': ' + message] otherwise; the name of a plain [Error] is
    'Error'. *)
Definition String_of (e : exn) : string :=
  match e with
  | Error m => if truthy m then "Error: " +:+ m else "Error"
  | ErrorOf n m =>
      if truthy n
      then (if truthy m then n +:+ ": " +:+ m else n)
      else m
  | Thrown v => v
  end.

Definition rsyncCommand : string :=
  "rsync -av /root/.openclaw/ /data/moltbot/openclaw/ 2>&1".

Section WithSandbox.
Context {W R2Bucket : Type}.
Variable sandbox : Sandbox W R2Bucket.

Abbreviation M := (M W R2Bucket).
Abbreviation MoltbotEnv := (MoltbotEnv R2Bucket).

(** Lines 13-26. *)
Definition findExistingMoltbotProcess : M (option Found) :=
  try_catch
    (processes ← call_listProcesses sandbox;
     match find isMoltbotProcess processes with
     | Some moltbotProcess =>
         mret (Some (mkFound (pid moltbotProcess) (status moltbotProcess)))
     | None => mret None
     end)
    (fun error =>
       console_error "[GATEWAY] Error listing processes:" [ArgExn error];;
       mret None).

(** The object literal of lines 58-61. *)
Definition launchEnv (env : MoltbotEnv) : gmap string string :=
  <["NODE_ENV" := "production"]>
    (<["ANTHROPIC_API_KEY" := or_empty (ANTHROPIC_API_KEY env)]> ∅).

(** Lines 36-47. *)
Definition mountStep (env : MoltbotEnv) : M unit :=
  match MOLTBOT_BUCKET env, truthy_opt (R2_BUCKET_NAME env) with
  | Some bucket, true =>
      try_catch
        (console_log "[GATEWAY] Mounting R2 storage..." [];;
         call_exec sandbox "mkdir -p /data/moltbot && chmod 777 /data/moltbot";;
         call_mountBucket sandbox bucket "/data/moltbot" false;;
         console_log "[GATEWAY] R2 storage mounted at /data/moltbot" [])
        (fun error =>
           console_error "[GATEWAY] R2 mount failed (continuing without):"
                         [ArgExn error])
  | _, _ => mret tt
  end.

(** Lines 31-65. *)
Definition ensureMoltbotGateway (env : MoltbotEnv) : M unit :=
  mountStep env;;
  existing ← findExistingMoltbotProcess;
  if isRunning existing then
    mret tt
  else
    console_log "[GATEWAY] Starting Moltbot gateway..." [];;
    call_startProcess sandbox
      (mkStartOptions ["/usr/local/bin/start-openclaw.sh"] (launchEnv env) None);;
    console_log "[GATEWAY] Moltbot gateway started" [].

(** Lines 70-89. *)
Definition syncToR2 (env : MoltbotEnv) : M SyncResult :=
  try_catch
    (if negb (truthy_opt (R2_BUCKET_NAME env)) then
       mret (mkSyncResult false (Some "R2_BUCKET_NAME not set"))
     else
       result ← call_exec sandbox rsyncCommand;
       console_log "[SYNC] R2 sync completed:" [ArgStr (stdout result)];;
       mret (mkSyncResult true None))
    (fun error =>
       console_error "[SYNC] R2 sync failed:" [ArgExn error];;
       mret (mkSyncResult false (Some (String_of error)))).

End WithSandbox.

End GatewayV1.

(** ** The standalone mount module (src/gateway/r2.ts) *)

Module R2.

Section WithSandbox.
Context {W R2Bucket : Type}.
Variable sandbox : Sandbox W R2Bucket.

(** Lines 11-36.  The function returns nothing ([Promise<void>]) and
    throws again what it caught. *)
Definition mountR2Storage (env : MoltbotEnv R2Bucket) : M W R2Bucket unit :=
  match MOLTBOT_BUCKET env, truthy_opt (R2_BUCKET_NAME env) with
  | Some bucket, true =>
      try_catch
        (console_log "[R2] Mounting R2 storage..." [];;
         call_exec sandbox "mkdir -p /data/moltbot && chmod 777 /data/moltbot";;
         call_mountBucket sandbox bucket "/data/moltbot" false;;
         console_log "[R2] R2 storage mounted at /data/moltbot" [])
        (fun error =>
           console_error "[R2] R2 mount failed (continuing without):"
                         [ArgExn error];;
           throw error)
  | _, _ =>
      console_log "[R2] No R2 storage configured, skipping mount" [];;
      mret tt
  end.

End WithSandbox.

End R2.

(** ** A concrete sandbox

    The world is the process table.  Launching appends an entry for the
    launcher with a chosen status; [exec] and [mountBucket] answer as
    told.  It serves to evaluate the code on explicit inputs. *)

Module Demo.

Definition World : Type := list Process.

Definition launched (opts : StartOptions) (st : string) : Process :=
  mkProcess 4242 (head (so_command opts)) None st.

Definition sandbox (onExec : string -> Completion ExecResult)
    (onMount : Completion unit) (launchStatus : string)
    : Sandbox World string :=
  mkSandbox
    (fun cmd w => (w, onExec cmd))
    (fun w => (w, Normal w))
    (fun _ _ _ w => (w, onMount))
    (fun opts w => (w ++ [launched opts launchStatus],
                    Normal (launched opts launchStatus)))
    (fun _ w => w)
    (fun _ => "2026-01-01T00:00:00.000Z").

Definition quiet (cmd : string) : Completion ExecResult :=
  Normal (mkExecResult "" "" 0).

(** The mount table does not list the volume. *)
Definition unmounted (cmd : string) : Completion ExecResult :=
  if String.eqb cmd Gateway.mountCheckCommand
  then Normal (mkExecResult ("not mounted" +:+ newline) "" 0)
  else quiet cmd.

(** The copy tool writes [err] on its diagnostic channel. *)
Definition rsyncStderr (err : string) (cmd : string) : Completion ExecResult :=
  if String.eqb cmd Gateway.rsyncCommand
  then Normal (mkExecResult "" err 0)
  else quiet cmd.

(** The header followed by a real error. *)
Definition headerThenError : string :=
  "sending incremental file list" +:+ newline
  +:+ "rsync: write failed on /data/moltbot/openclaw/state.json: No space left on device (28)".

(** A gateway entry left over from an earlier run. *)
Definition stale : Process :=
  mkProcess 17 (Some "/usr/local/bin/start-openclaw.sh") None "completed".

(** The gateway, up and running. *)
Definition live : Process :=
  mkProcess 23 (Some "/usr/local/bin/start-openclaw.sh") None "running".

Definition unrelated : Process :=
  mkProcess 5 (Some "sleep 600") None "running".

(** Everything works; a launched gateway is running at once. *)
Definition healthy : Sandbox World string :=
  sandbox quiet (Normal tt) "running".

(** A launched gateway is still starting when it is looked for. *)
Definition slowStart : Sandbox World string :=
  sandbox quiet (Normal tt) "starting".

(** The volume mounter refuses. *)
Definition mountFails : Sandbox World string :=
  sandbox quiet (Throw (Error "MountError")) "running".

(** The volume is not mounted and the mounter refuses. *)
Definition lostVolume : Sandbox World string :=
  sandbox unmounted (Throw (Error "MountError")) "running".

(** The copy reports the header and then a write error. *)
Definition diskFull : Sandbox World string :=
  sandbox (rsyncStderr headerThenError) (Normal tt) "running".

(** The process registry cannot be listed. *)
Definition registryDown : Sandbox World string :=
  mkSandbox
    (fun cmd w => (w, quiet cmd))
    (fun w => (w, Throw (Error "registry unavailable")))
    (fun _ _ _ w => (w, Normal tt))
    (fun opts w => (w ++ [launched opts "running"],
                    Normal (launched opts "running")))
    (fun _ w => w)
    (fun _ => "2026-01-01T00:00:00.000Z").

Definition fullEnv : MoltbotEnv string :=
  mkEnv (Some "MOLTBOT_BUCKET") (Some "demo") (Some "sk-ant-123") None None.

Definition noStorageEnv : MoltbotEnv string :=
  mkEnv None None (Some "sk-ant-123") None None.

(** Nothing is configured. *)
Definition bareEnv : MoltbotEnv string :=
  mkEnv None None None None None.

End Demo.

(** ** The vocabulary of the properties *)

Module Spec.
Import Gateway.

(** The pair [{ pid, status }] read off a registry entry. *)
Definition toFound (p : Process) : Found := mkFound (pid p) (status p).

(** Some entry of the listing carries the gateway signature and is
    running. *)
Definition someGatewayRunning (procs : list Process) : Prop :=
  exists p, p ∈ procs /\ isMoltbotProcess p = true /\ status p = "running".

(** The first entry of the listing that carries the gateway signature
    is running. *)
Definition firstGatewayRunning (procs : list Process) : Prop :=
  exists p, find isMoltbotProcess procs = Some p /\ status p = "running".

(** The registry answered, and the first gateway entry of its answer
    is running. *)
Definition confirmedRunning (r : Completion (list Process)) : Prop :=
  exists procs, r = Normal procs /\ firstGatewayRunning procs.

(** The registry shows no running gateway (or did not answer). *)
Definition noGatewayRunning (r : Completion (list Process)) : Prop :=
  match r with
  | Normal procs => ~ someGatewayRunning procs
  | Throw _ => True
  end.

(** The configuration holds the value [v], and [v] is not empty. *)
Definition present (value : option string) (v : string) : Prop :=
  value = Some v /\ v <> "".

(** What the process environment of the gateway must look like for the
    configuration [env]. *)
Definition launchEnvOk {R2Bucket} (env : MoltbotEnv R2Bucket)
    (e : gmap string string) : Prop :=
  e !! "NODE_ENV" = Some "production"
  /\ e !! "PATH" = Some "/usr/local/bin:/usr/bin:/bin"
  /\ e !! "HOME" = Some "/root"
  /\ (forall v, e !! "ANTHROPIC_API_KEY" = Some v
                <-> present (ANTHROPIC_API_KEY env) v)
  /\ (forall v, e !! "OPENAI_API_KEY" = Some v
                <-> present (OPENAI_API_KEY env) v)
  /\ (forall v, e !! "OPENCLAW_GATEWAY_TOKEN" = Some v
                <-> present (MOLTBOT_GATEWAY_TOKEN env) v)
  /\ map_Forall (fun _ v => v <> "") e.

(** The spec names the kinds of failure of a sync; the source tells
    them apart by the text of [error]. *)
Definition errorKind (r : SyncResult) : option string :=
  match error r with
  | Some msg =>
      if String.eqb msg "R2 storage is not configured" then Some "not_configured"
      else if String.eqb msg "R2 storage not mounted" then Some "mount_unavailable"
      else Some msg
  | None => None
  end.

Definition rsyncHeader : string := "sending incremental file list".

(** The diagnostic output is empty or is the header line alone. *)
Definition headerOnly (s : string) : Prop :=
  s = "" \/ s = rsyncHeader \/ s = rsyncHeader +:+ newline.

Section OfARun.
Context {W R2Bucket : Type}.

(** Every launch of the run passes a well-formed environment. *)
Definition launchesWithGoodEnv (env : MoltbotEnv R2Bucket)
    (run : Outcome W R2Bucket unit) : Prop :=
  forall opts rs,
    EvStartProcess opts rs ∈ calls run -> launchEnvOk env (so_env opts).

(** Every launch of the run that returned is followed by the settle
    delay and a second listing, which decides how the run ends. *)
Definition verifiesLaunch (run : Outcome W R2Bucket unit) : Prop :=
  forall opts proc,
    EvStartProcess opts (Normal proc) ∈ calls run ->
    exists pre r,
      calls run
      = pre ++ [EvStartProcess opts (Normal proc); EvTimeout 2000;
                EvListProcesses r]
      /\ (noGatewayRunning r ->
          result run = Throw (Error "Gateway failed to start"))
      /\ (result run = Normal tt -> confirmedRunning r).

(** The run does not throw. *)
Definition neverRaises {A} (run : Outcome W R2Bucket A) : Prop :=
  exists a, result run = Normal a.

(** The mount table does not list the volume and the volume mounter
    refuses any request. *)
Definition volumeLost (sandbox : Sandbox W R2Bucket) (w : W) : Prop :=
  (exists check,
     (exec sandbox mountCheckCommand w).2 = Normal check
     /\ includes (stdout check) "not mounted" = true)
  /\ (forall b path ro w', threw (mountBucket sandbox b path ro w').2 = true).

(** With the volume lost, the run reports a failure and does not
    copy. *)
Definition refusesWhenVolumeLost {R} (ok : R -> bool)
    (sandbox : Sandbox W R2Bucket) (w : W)
    (run : Outcome W R2Bucket R) : Prop :=
  volumeLost sandbox w ->
  (exists res, result run = Normal res /\ ok res = false)
  /\ count is_copy (calls run) = 0.
End OfARun.

Section Stated.
Context {W R2Bucket : Type}.
Variable sandbox : Sandbox W R2Bucket.
Variable env : MoltbotEnv R2Bucket.
Variable w : W.

(** Whenever some gateway entry is running, the run succeeds
    without mounting and without launching. *)
Definition idleWhenSomeRunning : Prop :=
  forall w' procs,
    listProcesses sandbox w = (w', Normal procs) ->
    someGatewayRunning procs ->
    result (ensureMoltbotGateway sandbox env w) = Normal tt
    /\ count is_mountBucket (calls (ensureMoltbotGateway sandbox env w)) = 0
    /\ count is_startProcess (calls (ensureMoltbotGateway sandbox env w)) = 0.

(** A copy that ran is a success exactly when its diagnostic output
    is empty or the header alone; any other output is a failure
    reported in [details]. *)
Definition judgedByHeaderOnly : Prop :=
  forall r,
    EvExec rsyncCommand (Normal r) ∈ calls (syncToR2 sandbox env w) ->
    exists res,
      result (syncToR2 sandbox env w) = Normal res
      /\ (headerOnly (stderr r) -> success res = true)
      /\ (~ headerOnly (stderr r) ->
          success res = false /\ details res = Some (stderr r)).
End Stated.

End Spec.
Import Spec.

(** ** More vocabulary *)

Module Shapes.
Import Gateway.

(** The answer of the event is the exception [e]. *)
Definition raisedWith {R2Bucket} (ev : Event R2Bucket) (e : exn) : Prop :=
  match ev with
  | EvExec _ r => r = Throw e
  | EvListProcesses r => r = Throw e
  | EvMountBucket _ _ _ r => r = Throw e
  | EvStartProcess _ r => r = Throw e
  | EvTimeout _ => False
  end.

(** A result of [syncToR2] is a success with its time stamp and nothing
    else, or a failure with an error text and details and no time
    stamp. *)
Definition wellFormedResult (res : SyncResult) : Prop :=
  (success res = true /\ error res = None /\ details res = None
   /\ is_Some (lastSync res))
  \/ (success res = false /\ is_Some (error res) /\ is_Some (details res)
      /\ lastSync res = None).

(** Listing the registry a second time, right after a listing, gives
    the same answer and changes nothing. *)
Definition stableListing {W R2Bucket} (sandbox : Sandbox W R2Bucket) : Prop :=
  forall w w' r, listProcesses sandbox w = (w', r) ->
                 listProcesses sandbox w' = (w', r).

(** The keys the full module can put in the environment of the gateway. *)
Definition launchKeys : list string :=
  ["NODE_ENV"; "PATH"; "HOME"; "ANTHROPIC_API_KEY"; "OPENAI_API_KEY";
   "OPENCLAW_GATEWAY_TOKEN"].
End Shapes.
Import Shapes.

(** Two more sandboxes over the process table. *)

Module MoreDemo.

(** No process can be started. *)
Definition launchFails : Sandbox Demo.World string :=
  mkSandbox
    (fun cmd w => (w, Demo.quiet cmd))
    (fun w => (w, Normal w))
    (fun _ _ _ w => (w, Normal tt))
    (fun _ w => (w, Throw (Error "spawn failed")))
    (fun _ w => w)
    (fun _ => "2026-01-01T00:00:00.000Z").

(** The volume is not mounted, and the mounter accepts. *)
Definition remountable : Sandbox Demo.World string :=
  Demo.sandbox Demo.unmounted (Normal tt) "running".

End MoreDemo.

(** ** Files

    A world that is the content of the two directories of the sync:
    the local state directory /root/.openclaw and the directory
    /data/moltbot/openclaw on the volume.  The copy command is the
    only command that touches them: with exit code 0 it has mirrored
    the local directory onto the volume, files deleted locally
    included; with another exit code it has changed nothing and, its
    diagnostics being redirected by [2>&1], leaves [stderr] empty. *)

Module Files.

Record World : Type := mkWorld {
  localDir : list string;
  durableDir : list string
}.

Definition copy (exit : Z) (w : World) : World * Completion ExecResult :=
  if Z.eqb exit 0
  then (mkWorld (localDir w) (localDir w),
        Normal (mkExecResult "sending incremental file list" "" 0))
  else (w,
        Normal (mkExecResult
                  "rsync error: some files/attrs were not transferred (code 23)"
                  "" exit)).

Definition sandbox (copyExit : Z) : Sandbox World string :=
  mkSandbox
    (fun cmd w => if String.eqb cmd Gateway.rsyncCommand
                  then copy copyExit w
                  else (w, Demo.quiet cmd))
    (fun w => (w, Normal []))
    (fun _ _ _ w => (w, Normal tt))
    (fun opts w => (w, Normal (Demo.launched opts "running")))
    (fun _ w => w)
    (fun _ => "2026-01-01T00:00:00.000Z").

(** b.txt was deleted locally after an earlier sync. *)
Definition afterLocalDelete : World :=
  mkWorld ["a.txt"] ["a.txt"; "b.txt"].

End Files.

(** ** The vocabulary of the mirror *)

Module Mirror.
Import Gateway.


Section OfAWorld.
Context {W R2Bucket : Type}.
(** What the two directories hold in a world. *)
Variables localFiles durableFiles : W -> list string.


End OfAWorld.

End Mirror.
Import Mirror.

(** ** Symbolic execution *)

Ltac unfold_monad :=
  unfold mbind, mret, M_bind, M_ret, bind, ret, throw, try_catch,
    console_log, console_error, call_exec, call_listProcesses,
    call_mountBucket, call_startProcess, sleep, date_now, after in *.

Ltac destruct_call :=
  match goal with
  | |- context [exec ?s ?c ?w] =>
      let E := fresh "Hexec" in
      destruct (exec s c w) as [? [?|?]] eqn:E
  | |- context [mountBucket ?s ?b ?p ?r ?w] =>
      let E := fresh "Hmount" in
      destruct (mountBucket s b p r w) as [? [?|?]] eqn:E
  | |- context [listProcesses ?s ?w] =>
      let E := fresh "Hlist" in
      destruct (listProcesses s w) as [? [?|?]] eqn:E
  | |- context [startProcess ?s ?o ?w] =>
      let E := fresh "Hstart" in
      destruct (startProcess s o w) as [? [?|?]] eqn:E
  end.

Ltac in_cases H :=
  repeat first
    [ apply elem_of_nil in H; contradiction
    | apply elem_of_cons in H; destruct H as [H|H]; [try discriminate H|] ].

Ltac run := unfold_monad; cbn; repeat (destruct_call; cbn).

(** ** Properties of the full gateway module *)

Module GatewayFacts.
Section WithSandbox.
Context {W R2Bucket : Type}.
Variable sandbox : Sandbox W R2Bucket.
Import Gateway.
Implicit Types (env : MoltbotEnv R2Bucket) (w : W).

Lemma find_returns w w' procs :
  listProcesses sandbox w = (w', Normal procs) ->
  findExistingMoltbotProcess sandbox w
  = mkOutcome w' [EvListProcesses (Normal procs)] []
      (Normal (toFound <$> find isMoltbotProcess procs)).
Proof.
  intros H. unfold findExistingMoltbotProcess. unfold_monad. rewrite H. cbn.
  destruct (find isMoltbotProcess procs); reflexivity.
Qed.

Lemma find_absorbs w w' e :
  listProcesses sandbox w = (w', Throw e) ->
  findExistingMoltbotProcess sandbox w
  = mkOutcome w' [EvListProcesses (Throw e)]
      [ConsoleError "[GATEWAY] Error listing processes:" [ArgExn e]]
      (Normal None).
Proof.
  intros H. unfold findExistingMoltbotProcess. unfold_monad. rewrite H. reflexivity.
Qed.

Lemma isRunning_find procs :
  isRunning (toFound <$> find isMoltbotProcess procs) = true
  <-> firstGatewayRunning procs.
Proof.
  unfold firstGatewayRunning.
  destruct (find isMoltbotProcess procs) as [p|]; cbn.
  - rewrite String.eqb_eq. split.
    + intros Hs. by exists p.
    + by intros (p' & [= <-] & Hs).
  - split; [discriminate|]. by intros (p' & [=] & _).
Qed.

Lemma find_total w :
  exists r found,
    calls (findExistingMoltbotProcess sandbox w) = [EvListProcesses r]
    /\ result (findExistingMoltbotProcess sandbox w) = Normal found
    /\ listProcesses sandbox w = (final (findExistingMoltbotProcess sandbox w), r)
    /\ (isRunning found = true <-> confirmedRunning r).
Proof.
  destruct (listProcesses sandbox w) as [w' [procs|e]] eqn:H.
  - rewrite (find_returns _ _ _ H). cbn. do 2 eexists.
    do 3 (split; [reflexivity|]).
    rewrite isRunning_find. unfold confirmedRunning. split.
    + intros Hf. by exists procs.
    + by intros (procs' & [= <-] & Hf).
  - rewrite (find_absorbs _ _ _ H). cbn. do 2 eexists.
    do 3 (split; [reflexivity|]).
    split; [discriminate|]. by intros (procs & [=] & _).
Qed.

Lemma mount_total env w :
  exists b, result (mountR2Storage sandbox env w) = Normal b.
Proof.
  unfold mountR2Storage.
  destruct (truthy_opt (R2_BUCKET_NAME env)), (MOLTBOT_BUCKET env);
    run; eauto.
Qed.

Lemma mount_calls env w ev :
  ev ∈ calls (mountR2Storage sandbox env w) ->
  is_startProcess ev = false /\ is_copy ev = false
  /\ (raised ev = true -> result (mountR2Storage sandbox env w) = Normal false).
Proof.
  unfold mountR2Storage.
  destruct (truthy_opt (R2_BUCKET_NAME env)), (MOLTBOT_BUCKET env);
    run; intros Hin; in_cases Hin; subst ev;
    (split; [reflexivity|split; [reflexivity|]]); (discriminate || reflexivity).
Qed.

#[local] Arguments findExistingMoltbotProcess : simpl never.
#[local] Arguments mountR2Storage : simpl never.
#[local] Arguments launchOptions : simpl never.
#[local] Arguments openclawEnv : simpl never.

Lemma first_is_some procs :
  firstGatewayRunning procs -> someGatewayRunning procs.
Proof.
  intros (p & Hf & Hs). exists p. apply find_some in Hf as [Hin Hm].
  split; [by apply list_elem_of_In|done].
Qed.

Lemma first_running_some r : confirmedRunning r -> noGatewayRunning r -> False.
Proof.
  intros (procs & -> & Hf) Hno. cbn in Hno. by apply Hno, first_is_some.
Qed.

(** The two ways a run of [ensureMoltbotGateway] can go: the check
    ends it, or storage is prepared and the launch is attempted. *)
Lemma ensure_shape env w :
  exists r0,
    r0 = (listProcesses sandbox w).2 /\
    ((confirmedRunning r0
     /\ result (ensureMoltbotGateway sandbox env w) = Normal tt
     /\ calls (ensureMoltbotGateway sandbox env w) = [EvListProcesses r0])
    \/
    (~ confirmedRunning r0
     /\ exists cm rs,
         (forall ev, ev ∈ cm -> is_startProcess ev = false)
         /\ ((exists e,
                rs = Throw e
                /\ calls (ensureMoltbotGateway sandbox env w)
                   = EvListProcesses r0 :: cm
                       ++ [EvStartProcess (launchOptions env) rs]
                /\ result (ensureMoltbotGateway sandbox env w) = Throw e)
             \/
             (exists proc r,
                rs = Normal proc
                /\ calls (ensureMoltbotGateway sandbox env w)
                   = EvListProcesses r0 :: cm
                       ++ [EvStartProcess (launchOptions env) rs;
                           EvTimeout 2000; EvListProcesses r]
                /\ ((confirmedRunning r
                     /\ result (ensureMoltbotGateway sandbox env w) = Normal tt)
                    \/
                    (~ confirmedRunning r
                     /\ result (ensureMoltbotGateway sandbox env w)
                        = Throw (Error "Gateway failed to start"))))))).
Proof.
  unfold ensureMoltbotGateway. unfold_monad.
  destruct (find_total w) as (r0 & found & Hc0 & Hr0 & Hl0 & Hrun0).
  destruct (findExistingMoltbotProcess sandbox w) as [w1 c1 l1 res1].
  cbn in Hc0, Hr0. subst c1 res1. exists r0.
  split; [by rewrite Hl0|].
  destruct (isRunning found); cbn.
  { left. split; [by apply Hrun0|done]. }
  right. split; [intros H; apply Hrun0 in H; discriminate|].
  pose proof (mount_calls env w1) as Hmc.
  destruct (mount_total env w1) as [b Hb].
  destruct (mountR2Storage sandbox env w1) as [w2 c2 l2 res2].
  cbn in Hmc, Hb. subst res2.
  assert (Hc2 : forall ev, ev ∈ c2 -> is_startProcess ev = false).
  { intros ev Hin. by destruct (Hmc _ Hin) as [? _]. }
  exists c2.
  destruct b; cbn.
  all: destruct (startProcess sandbox (launchOptions env) w2)
         as [w3 [proc|e]] eqn:Hstart; cbn.
  all: eexists; (split; [exact Hc2|]).
  2, 4: left; exists e; rewrite ?app_nil_r; done.
  all: right.
  all: destruct (find_total (setTimeout sandbox 2000 w3))
         as (r & verify & Hc & Hr & _ & Hrun).
  all: destruct (findExistingMoltbotProcess sandbox (setTimeout sandbox 2000 w3))
         as [w4 c4 l4 res4].
  all: cbn in Hc, Hr; subst c4 res4.
  all: exists proc, r; split; [reflexivity|].
  all: destruct (isRunning verify); cbn.
  all: rewrite ?app_nil_r.
  all: (split; [reflexivity|]).
  1, 3: left; split; [by apply Hrun|done].
  all: right; split; [intros H; apply Hrun in H; discriminate|done].
Qed.

(** *** The check *)

(** What the check does decide.  When the registry answers and the
    first entry of its listing that carries the gateway signature is
    running, the [ensureMoltbotGateway] of the full gateway module
    returns normally after that single listing:
    it runs no command, makes no call to the volume mounter and no
    call to [startProcess], and leaves the world as the listing left
    it. *)
Theorem ensure_idle_when_first_match_running env w w' procs :
  listProcesses sandbox w = (w', Normal procs) ->
  firstGatewayRunning procs ->
  result (ensureMoltbotGateway sandbox env w) = Normal tt
  /\ calls (ensureMoltbotGateway sandbox env w) = [EvListProcesses (Normal procs)]
  /\ count is_exec (calls (ensureMoltbotGateway sandbox env w)) = 0
  /\ count is_mountBucket (calls (ensureMoltbotGateway sandbox env w)) = 0
  /\ count is_startProcess (calls (ensureMoltbotGateway sandbox env w)) = 0
  /\ final (ensureMoltbotGateway sandbox env w) = w'.
Proof.
  intros Hl (p & Hf & Hs).
  unfold ensureMoltbotGateway. unfold_monad.
  rewrite (find_returns _ _ _ Hl), Hf. cbn. rewrite Hs. cbn.
  repeat split.
Qed.

(** *** The launch and its verification *)

Lemma start_in_calls env w opts rs :
  EvStartProcess opts rs ∈ calls (ensureMoltbotGateway sandbox env w) ->
  exists r0 cm post,
    opts = launchOptions env
    /\ calls (ensureMoltbotGateway sandbox env w)
       = EvListProcesses r0 :: cm ++ EvStartProcess opts rs :: post
    /\ (forall ev, ev ∈ cm -> is_startProcess ev = false)
    /\ match rs with
       | Throw e =>
           post = [] /\ result (ensureMoltbotGateway sandbox env w) = Throw e
       | Normal _ =>
           exists r,
             post = [EvTimeout 2000; EvListProcesses r]
             /\ ((confirmedRunning r
                  /\ result (ensureMoltbotGateway sandbox env w) = Normal tt)
                 \/ (~ confirmedRunning r
                     /\ result (ensureMoltbotGateway sandbox env w)
                        = Throw (Error "Gateway failed to start")))
       end.
Proof.
  intros Hin.
  destruct (ensure_shape env w)
    as (r0 & _ & [(_ & _ & Hc) | (_ & cm & rs' & Hcm & Hcase)]).
  { rewrite Hc in Hin. in_cases Hin. }
  destruct Hcase as [(e & -> & Hc & Hres) | (proc & r & -> & Hc & Hres)].
  all: rewrite Hc in Hin |- *.
  all: apply elem_of_cons in Hin as [Hin|Hin]; [discriminate|].
  all: apply elem_of_app in Hin as [Hin|Hin]; [by apply Hcm in Hin|].
  all: in_cases Hin; injection Hin as -> ->.
  all: exists r0, cm; eexists; do 3 (split; [done|]).
  - done.
  - by exists r.
Qed.

(** C3 (as amended).  In the [ensureMoltbotGateway] of the full
    gateway module, whenever [startProcess] has returned, the settle
    delay of
    2000 ms and a second listing of the registry follow and end the
    run; if that listing shows no running gateway (or fails), the run
    ends by throwing [Error('Gateway failed to start')]; and the run
    returns normally only when that listing confirms a running
    gateway. *)
Theorem launch_is_verified env w opts proc :
  EvStartProcess opts (Normal proc) ∈ calls (ensureMoltbotGateway sandbox env w) ->
  exists pre r,
    calls (ensureMoltbotGateway sandbox env w)
    = pre ++ [EvStartProcess opts (Normal proc); EvTimeout 2000; EvListProcesses r]
    /\ (noGatewayRunning r ->
        result (ensureMoltbotGateway sandbox env w)
        = Throw (Error "Gateway failed to start"))
    /\ (result (ensureMoltbotGateway sandbox env w) = Normal tt ->
        confirmedRunning r).
Proof.
  intros Hin.
  destruct (start_in_calls _ _ _ _ Hin)
    as (r0 & cm & post & _ & Hc & _ & r & -> & Hres).
  exists (EvListProcesses r0 :: cm), r. split; [by rewrite Hc|].
  destruct Hres as [[Hrun Hres] | [Hrun Hres]]; rewrite Hres; split.
  - intros Hno. by destruct (first_running_some _ Hrun Hno).
  - done.
  - done.
  - discriminate.
Qed.

Lemma v1_find_total w :
  exists found, result (GatewayV1.findExistingMoltbotProcess sandbox w) = Normal found.
Proof.
  unfold GatewayV1.findExistingMoltbotProcess. unfold_monad.
  destruct (listProcesses sandbox w) as [w' [procs|e]]; cbn; [|eauto].
  destruct (find GatewayV1.isMoltbotProcess procs); eauto.
Qed.

Lemma v1_find_absorbs w w' e :
  listProcesses sandbox w = (w', Throw e) ->
  GatewayV1.findExistingMoltbotProcess sandbox w
  = mkOutcome w' [EvListProcesses (Throw e)]
      [ConsoleError "[GATEWAY] Error listing processes:" [ArgExn e]]
      (Normal None).
Proof.
  intros H. unfold GatewayV1.findExistingMoltbotProcess. unfold_monad.
  rewrite H. reflexivity.
Qed.

Lemma v1_mountStep_total env w :
  result (GatewayV1.mountStep sandbox env w) = Normal tt.
Proof.
  unfold GatewayV1.mountStep.
  destruct (MOLTBOT_BUCKET env), (truthy_opt (R2_BUCKET_NAME env)); run; done.
Qed.

#[local] Arguments GatewayV1.mountStep : simpl never.
#[local] Arguments GatewayV1.launchEnv : simpl never.

Lemma v1_outage_launches env w w' e :
  listProcesses sandbox (final (GatewayV1.mountStep sandbox env w)) = (w', Throw e) ->
  exists rs,
    EvStartProcess
      (mkStartOptions ["/usr/local/bin/start-openclaw.sh"]
         (GatewayV1.launchEnv env) None) rs
      ∈ calls (GatewayV1.ensureMoltbotGateway sandbox env w).
Proof.
  intros Hl. unfold GatewayV1.ensureMoltbotGateway. unfold_monad.
  pose proof (v1_mountStep_total env w) as Hm.
  destruct (GatewayV1.mountStep sandbox env w) as [w1 c1 l1 res1].
  cbn in Hm, Hl. subst res1.
  rewrite (v1_find_absorbs _ _ _ Hl). cbn.
  destruct (startProcess sandbox _ w') as [w2 [proc|e']]; cbn.
  all: eexists; apply elem_of_app; right.
  all: apply list_elem_of_further, list_elem_of_here.
Qed.

(** C10.  [findExistingMoltbotProcess] always returns; when the
    listing of the registry throws it returns [null], as it does when
    no entry carries the gateway signature; and
    [ensureMoltbotGateway] then goes on to call [startProcess] with
    the launcher.  The same holds of the short module, where the
    listing comes after the mount step. *)
Theorem registry_outage_is_absence env w :
  (exists found, result (findExistingMoltbotProcess sandbox w) = Normal found)
  /\ (forall w' procs,
        listProcesses sandbox w = (w', Normal procs) ->
        find isMoltbotProcess procs = None ->
        result (findExistingMoltbotProcess sandbox w) = Normal None)
  /\ (forall w' e,
        listProcesses sandbox w = (w', Throw e) ->
        result (findExistingMoltbotProcess sandbox w) = Normal None
        /\ exists rs,
             EvStartProcess (launchOptions env) rs
               ∈ calls (ensureMoltbotGateway sandbox env w)
             /\ so_command (launchOptions env)
                = ["/usr/local/bin/start-openclaw.sh"])
  /\ (exists found,
        result (GatewayV1.findExistingMoltbotProcess sandbox w) = Normal found)
  /\ (forall w' e,
        listProcesses sandbox w = (w', Throw e) ->
        result (GatewayV1.findExistingMoltbotProcess sandbox w) = Normal None)
  /\ (forall w' e,
        listProcesses sandbox (final (GatewayV1.mountStep sandbox env w))
        = (w', Throw e) ->
        exists rs,
          EvStartProcess
            (mkStartOptions ["/usr/local/bin/start-openclaw.sh"]
               (GatewayV1.launchEnv env) None) rs
            ∈ calls (GatewayV1.ensureMoltbotGateway sandbox env w)).
Proof.
  split_and!.
  - destruct (find_total w) as (r & found & _ & Hr & _). by exists found.
  - intros w' procs Hl Hf. by rewrite (find_returns _ _ _ Hl), Hf.
  - intros w' e Hl. split; [by rewrite (find_absorbs _ _ _ Hl)|].
    destruct (ensure_shape env w)
      as (r0 & Hr0 & [(Hrun & _) | (_ & cm & rs & _ & Hcase)]).
    { rewrite Hl in Hr0. cbn in Hr0. subst r0. by destruct Hrun as (? & [=] & _). }
    exists rs. split; [|done].
    destruct Hcase as [(? & _ & -> & _) | (? & ? & _ & -> & _)].
    all: apply elem_of_cons; right; apply elem_of_app; right.
    all: apply elem_of_cons; by left.
  - apply v1_find_total.
  - intros w' e Hl. by rewrite (v1_find_absorbs _ _ _ Hl).
  - apply v1_outage_launches.
Qed.

(** *** The process environment *)

Lemma lookup_set_if_truthy key value obj k :
  set_if_truthy key value obj !! k
  = if truthy_opt value && String.eqb key k then value else obj !! k.
Proof.
  unfold set_if_truthy.
  destruct value as [v|]; cbn; [|done].
  destruct (truthy v); cbn; [|done].
  destruct (String.eqb_spec key k) as [->|Hne].
  - by rewrite lookup_insert_eq.
  - by rewrite lookup_insert_ne.
Qed.

Lemma truthy_nonempty v : truthy v = true <-> v <> "".
Proof. destruct v; cbn; split; (done || congruence). Qed.

Lemma conditional_entry value v :
  (if truthy_opt value then value else None) = Some v <-> present value v.
Proof.
  unfold present. destruct value as [u|]; cbn.
  - destruct (truthy u) eqn:Hu; split.
    + intros [= ->]. split; [done|]. by apply truthy_nonempty.
    + by intros [[= ->] _].
    + discriminate.
    + intros [[= ->] Hv]. apply truthy_nonempty in Hv. congruence.
  - split; [discriminate|]. by intros [[=] _].
Qed.

Lemma set_if_truthy_nonempty key value obj :
  map_Forall (fun _ v => v <> "") obj ->
  map_Forall (fun _ v => v <> "") (set_if_truthy key value obj).
Proof.
  intros Hobj. unfold set_if_truthy.
  destruct value as [v|]; [|done].
  destruct (truthy v) eqn:Hv; [|done].
  apply map_Forall_insert_2; [|done]. by apply truthy_nonempty.
Qed.

Lemma openclawEnv_ok env : launchEnvOk env (openclawEnv env).
Proof.
  unfold launchEnvOk, openclawEnv. split_and!.
  1-3: by rewrite !lookup_set_if_truthy, !andb_false_r.
  1-3: intros v; rewrite !lookup_set_if_truthy; cbn;
       rewrite ?andb_false_r, ?andb_true_r;
       rewrite ?lookup_insert_ne, ?lookup_empty by done;
       apply conditional_entry.
  do 3 apply set_if_truthy_nonempty.
  do 3 (apply map_Forall_insert_2; [done|]).
  apply map_Forall_empty.
Qed.

(** C2 (as amended).  Every call of [startProcess] made by the
    [ensureMoltbotGateway] of the full gateway module passes an
    environment that maps NODE_ENV to production, PATH to
    the three system directories and HOME to /root; that maps
    ANTHROPIC_API_KEY, OPENAI_API_KEY and OPENCLAW_GATEWAY_TOKEN to a
    value exactly when the configuration holds that value and it is
    not empty; and in which no key at all is mapped to the empty
    string. *)
Theorem launch_environment env w opts rs :
  EvStartProcess opts rs ∈ calls (ensureMoltbotGateway sandbox env w) ->
  launchEnvOk env (so_env opts).
Proof.
  intros Hin.
  destruct (start_in_calls _ _ _ _ Hin) as (_ & _ & _ & -> & _).
  apply openclawEnv_ok.
Qed.

(** *** Mounting *)

Lemma r2_mount_calls env w ev :
  ev ∈ calls (R2.mountR2Storage sandbox env w) ->
  raised ev = true ->
  exists e, result (R2.mountR2Storage sandbox env w) = Throw e.
Proof.
  unfold R2.mountR2Storage.
  destruct (MOLTBOT_BUCKET env), (truthy_opt (R2_BUCKET_NAME env));
    run; intros Hin; in_cases Hin; subst ev; (discriminate || eauto).
Qed.

(** C4 (as amended).  The [mountR2Storage] of the gateway module never
    throws: it always returns a boolean, and whenever one of its calls
    to the sandbox (the creation of the directory, the change of its
    permissions, the mount itself, or a later step) has thrown, the
    boolean is [false].  The [mountR2Storage] of r2.ts, whenever one
    of its calls to the sandbox has thrown, throws to its caller. *)
Theorem mount_never_raises env w :
  (exists b, result (mountR2Storage sandbox env w) = Normal b)
  /\ (forall ev,
        ev ∈ calls (mountR2Storage sandbox env w) ->
        raised ev = true ->
        result (mountR2Storage sandbox env w) = Normal false)
  /\ (forall ev,
        ev ∈ calls (R2.mountR2Storage sandbox env w) ->
        raised ev = true ->
        exists e, result (R2.mountR2Storage sandbox env w) = Throw e).
Proof.
  split; [apply mount_total|]. split.
  - intros ev Hin. by destruct (mount_calls env w ev Hin) as (_ & _ & H).
  - apply r2_mount_calls.
Qed.

(** The three failures the mount can meet, one by one. *)
Lemma mount_mkdir_fails env w bucket w1 e :
  MOLTBOT_BUCKET env = Some bucket ->
  truthy_opt (R2_BUCKET_NAME env) = true ->
  exec sandbox "mkdir -p /data/moltbot" w = (w1, Throw e) ->
  result (mountR2Storage sandbox env w) = Normal false
  /\ calls (mountR2Storage sandbox env w)
     = [EvExec "mkdir -p /data/moltbot" (Throw e)].
Proof.
  intros Hb Hn He. unfold mountR2Storage. rewrite Hb, Hn.
  unfold_monad. cbn. rewrite He. done.
Qed.

Lemma mount_chmod_fails env w bucket w1 r1 w2 e :
  MOLTBOT_BUCKET env = Some bucket ->
  truthy_opt (R2_BUCKET_NAME env) = true ->
  exec sandbox "mkdir -p /data/moltbot" w = (w1, Normal r1) ->
  exec sandbox "chmod 777 /data/moltbot" w1 = (w2, Throw e) ->
  result (mountR2Storage sandbox env w) = Normal false.
Proof.
  intros Hb Hn H1 H2. unfold mountR2Storage. rewrite Hb, Hn.
  unfold_monad. cbn. rewrite H1. cbn. rewrite H2. done.
Qed.

Lemma mount_mountBucket_fails env w bucket w1 r1 w2 r2 w3 e :
  MOLTBOT_BUCKET env = Some bucket ->
  truthy_opt (R2_BUCKET_NAME env) = true ->
  exec sandbox "mkdir -p /data/moltbot" w = (w1, Normal r1) ->
  exec sandbox "chmod 777 /data/moltbot" w1 = (w2, Normal r2) ->
  mountBucket sandbox bucket "/data/moltbot" false w2 = (w3, Throw e) ->
  result (mountR2Storage sandbox env w) = Normal false.
Proof.
  intros Hb Hn H1 H2 H3. unfold mountR2Storage. rewrite Hb, Hn.
  unfold_monad. cbn. rewrite H1. cbn. rewrite H2. cbn. rewrite H3. done.
Qed.

(** C5.  When the bucket binding or the bucket name is missing from
    the configuration, [mountR2Storage] returns [false] at once: it
    makes no call to the sandbox (no [exec], no [mountBucket]) and
    leaves the world as it was; it only writes one line on the
    console.  The [mountR2Storage] of r2.ts, which has no value to
    return, returns at once in the same way. *)
Theorem mount_unconfigured env w :
  MOLTBOT_BUCKET env = None \/ truthy_opt (R2_BUCKET_NAME env) = false ->
  mountR2Storage sandbox env w
  = mkOutcome w [] [ConsoleLog "[R2] R2 configuration missing, using ephemeral storage" []]
      (Normal false)
  /\ R2.mountR2Storage sandbox env w
     = mkOutcome w [] [ConsoleLog "[R2] No R2 storage configured, skipping mount" []]
         (Normal tt).
Proof.
  intros [H|H]; unfold mountR2Storage, R2.mountR2Storage; rewrite H.
  - by destruct (truthy_opt (R2_BUCKET_NAME env)).
  - by destruct (MOLTBOT_BUCKET env).
Qed.

(** *** The sync *)

#[local] Arguments backup : simpl never.

Lemma count_none (p : Event R2Bucket -> bool) (l : list (Event R2Bucket)) :
  (forall ev, ev ∈ l -> p ev = false) -> count p l = 0.
Proof.
  unfold count. induction l as [|ev l IH]; intros H; [done|].
  cbn. rewrite (H ev) by apply list_elem_of_here.
  apply IH. intros ev' Hin. apply H. by apply list_elem_of_further.
Qed.

Lemma isRsyncError_false r :
  isRsyncError r = false
  <-> stderr r = "" \/ includes (stderr r) "sending incremental file list" = true.
Proof.
  unfold isRsyncError.
  destruct (stderr r) as [|c s] eqn:Hs; cbn [truthy andb].
  - split; [by left|done].
  - rewrite negb_false_iff. split; [by right|]. by intros [?|?].
Qed.

(** The copy step: either one of its commands throws, and then the
    copy did not return; or the three commands return and the answer
    of the copy decides the result. *)
Lemma backup_shape w :
  (exists e,
     result (backup sandbox w) = Throw e
     /\ forall r, EvExec rsyncCommand (Normal r) ∉ calls (backup sandbox w))
  \/
  (exists r1 r2 r,
     calls (backup sandbox w)
     = [EvExec "mkdir -p /root/.openclaw" (Normal r1);
        EvExec "mkdir -p /data/moltbot/openclaw" (Normal r2);
        EvExec rsyncCommand (Normal r)]
     /\ result (backup sandbox w)
        = Normal (if isRsyncError r then syncFailed (stderr r)
                  else mkSyncResult true None None
                         (Some (now sandbox (final (backup sandbox w)))))).
Proof.
  unfold backup. unfold_monad.
  destruct (exec sandbox "mkdir -p /root/.openclaw" w) as [w1 [r1|e]]; cbn.
  2: left; eexists; (split; [reflexivity|]); intros r Hin; in_cases Hin.
  destruct (exec sandbox "mkdir -p /data/moltbot/openclaw" w1) as [w2 [r2|e]]; cbn.
  2: left; eexists; (split; [reflexivity|]); intros r Hin; in_cases Hin.
  destruct (exec sandbox rsyncCommand w2) as [w3 [r|e]]; cbn.
  2: left; eexists; (split; [reflexivity|]); intros r Hin; in_cases Hin.
  right. exists r1, r2, r. by destruct (isRsyncError r).
Qed.

Lemma copy_in_backup w r :
  EvExec rsyncCommand (Normal r) ∈ calls (backup sandbox w) ->
  result (backup sandbox w)
  = Normal (if isRsyncError r then syncFailed (stderr r)
            else mkSyncResult true None None
                   (Some (now sandbox (final (backup sandbox w))))).
Proof.
  intros Hin.
  destruct (backup_shape w) as [(e & _ & Hno) | (r1 & r2 & r' & Hc & Hres)].
  { by destruct (Hno r). }
  rewrite Hc in Hin. in_cases Hin. by injection Hin as ->.
Qed.

(** C7.  When the bucket name is missing from the configuration,
    [syncToR2] returns the failure whose [error] reads
    'R2 storage is not configured' (the kind the spec calls
    not_configured), with [success] false; it makes no call to the
    sandbox, hence no copy, and leaves the world as it was.  The
    [syncToR2] of the short module does the same, its [error] reading
    'R2_BUCKET_NAME not set'. *)
Theorem sync_not_configured env w :
  truthy_opt (R2_BUCKET_NAME env) = false ->
  syncToR2 sandbox env w
  = mkOutcome w [] [ConsoleLog "[SYNC] Starting R2 backup sync..." []]
      (Normal notConfigured)
  /\ success notConfigured = false
  /\ errorKind notConfigured = Some "not_configured"
  /\ GatewayV1.syncToR2 sandbox env w
     = mkOutcome w [] []
         (Normal (GatewayV1.mkSyncResult false (Some "R2_BUCKET_NAME not set"))).
Proof.
  intros H. unfold syncToR2, GatewayV1.syncToR2. unfold_monad. rewrite H. done.
Qed.

(** C8 (as amended).  In the full gateway module, when the bucket
    name is configured, the query of the mount table answers
    'not mounted', and the attempt to mount returns [false],
    [syncToR2] returns the failure whose [error] reads
    'R2 storage not mounted' (the kind the spec calls
    mount_unavailable), with [success] false; its calls are the query
    and those of the mount attempt, and the copy is not among them. *)
Theorem sync_mount_unavailable env w w1 check :
  truthy_opt (R2_BUCKET_NAME env) = true ->
  exec sandbox mountCheckCommand w = (w1, Normal check) ->
  includes (stdout check) "not mounted" = true ->
  result (mountR2Storage sandbox env w1) = Normal false ->
  result (syncToR2 sandbox env w) = Normal notMounted
  /\ success notMounted = false
  /\ errorKind notMounted = Some "mount_unavailable"
  /\ calls (syncToR2 sandbox env w)
     = EvExec mountCheckCommand (Normal check)
         :: calls (mountR2Storage sandbox env w1)
  /\ count is_copy (calls (syncToR2 sandbox env w)) = 0.
Proof.
  intros Hn Hcheck Hinc Hm.
  pose proof (mount_calls env w1) as Hmc.
  assert (Hsync :
    result (syncToR2 sandbox env w) = Normal notMounted
    /\ calls (syncToR2 sandbox env w)
       = EvExec mountCheckCommand (Normal check)
           :: calls (mountR2Storage sandbox env w1)).
  { unfold syncToR2. unfold_monad. rewrite Hn. cbn.
    rewrite Hcheck. cbn. rewrite Hinc.
    destruct (mountR2Storage sandbox env w1) as [w2 c2 l2 res2].
    cbn in Hm. subst res2. cbn. by rewrite app_nil_r. }
  destruct Hsync as [Hres Hcalls].
  split_and!; try done.
  rewrite Hcalls. apply count_none. intros ev Hin.
  apply elem_of_cons in Hin as [->|Hin]; [by vm_compute|].
  by destruct (Hmc _ Hin) as (_ & ? & _).
Qed.

(** C9 (as amended).  In the [syncToR2] of the full gateway module,
    when the copy has run and returned [r]: if its
    [stderr] is empty or contains 'sending incremental file list'
    anywhere, [syncToR2] returns a success stamped with the current
    time; if its [stderr] is not empty and does not contain that
    text, [syncToR2] returns the failure 'Sync failed' with that
    [stderr] as [details]. *)
Theorem copy_result env w r :
  EvExec rsyncCommand (Normal r) ∈ calls (syncToR2 sandbox env w) ->
  (stderr r = "" \/ includes (stderr r) "sending incremental file list" = true ->
   exists t, result (syncToR2 sandbox env w)
             = Normal (mkSyncResult true None None (Some t)))
  /\ (stderr r <> "" ->
      includes (stderr r) "sending incremental file list" = false ->
      result (syncToR2 sandbox env w)
      = Normal (mkSyncResult false (Some "Sync failed") (Some (stderr r)) None)).
Proof.
  intros Hin.
  assert (Hres : exists t,
    result (syncToR2 sandbox env w)
    = Normal (if isRsyncError r then syncFailed (stderr r)
              else mkSyncResult true None None (Some t))).
  { revert Hin. unfold syncToR2. unfold_monad.
    destruct (truthy_opt (R2_BUCKET_NAME env)); cbn;
      [|intros Hin; in_cases Hin].
    destruct (exec sandbox mountCheckCommand w) as [w1 [check|e]]; cbn;
      [|intros Hin; in_cases Hin].
    assert (Hbackup : forall w',
      EvExec rsyncCommand (Normal r) ∈ calls (backup sandbox w') ->
      exists t, result (backup sandbox w')
        = Normal (if isRsyncError r then syncFailed (stderr r)
                  else mkSyncResult true None None (Some t))).
    { intros w' Hin. eexists. by apply copy_in_backup. }
    destruct (includes (stdout check) "not mounted").
    - pose proof (mount_calls env w1) as Hmc.
      destruct (mount_total env w1) as [b Hb].
      destruct (mountR2Storage sandbox env w1) as [w2 c2 l2 res2].
      cbn in Hmc, Hb. subst res2.
      assert (Hc2 : EvExec rsyncCommand (Normal r) ∉ c2).
      { intros Hin. by destruct (Hmc _ Hin) as (_ & ? & _). }
      destruct b; cbn.
      + specialize (Hbackup w2).
        destruct (backup sandbox w2) as [w3 c3 l3 [res|e]]; cbn in *.
        * intros Hin. rewrite ?app_nil_r in Hin.
          apply elem_of_cons in Hin as [Hin|Hin]; [discriminate|].
          apply elem_of_app in Hin as [Hin|Hin]; [done|]. auto.
        * intros Hin.
          apply elem_of_cons in Hin as [Hin|Hin]; [discriminate|].
          rewrite ?app_nil_r in Hin.
          apply elem_of_app in Hin as [Hin|Hin]; [done|].
          by destruct (Hbackup Hin).
      + intros Hin. rewrite ?app_nil_r in Hin.
        apply elem_of_cons in Hin as [Hin|Hin]; [discriminate|]. done.
    - specialize (Hbackup w1).
      destruct (backup sandbox w1) as [w3 c3 l3 [res|e]]; cbn in *.
      * intros Hin.
        apply elem_of_cons in Hin as [Hin|Hin]; [discriminate|].
        rewrite ?app_nil_r in Hin. auto.
      * intros Hin.
        apply elem_of_cons in Hin as [Hin|Hin]; [discriminate|].
        rewrite ?app_nil_r in Hin. by destruct (Hbackup Hin). }
  destruct Hres as [t Hres]. rewrite Hres. split.
  - intros H. apply isRsyncError_false in H. rewrite H. by exists t.
  - intros Hne Hinc.
    destruct (isRsyncError r) eqn:He; [done|].
    apply isRsyncError_false in He as [?|?]; congruence.
Qed.

(** X21.  A sync that reports success has run the mirroring copy as
    its last call to the sandbox: [rsync -av --delete] from the local
    state directory to the directory on the volume. *)
Lemma success_ran_mirror env w res :
  result (syncToR2 sandbox env w) = Normal res ->
  success res = true ->
  exists pre r,
    calls (syncToR2 sandbox env w)
    = pre ++ [EvExec "rsync -av --delete /root/.openclaw/ /data/moltbot/openclaw/ 2>&1"
                     (Normal r)].
Proof.
  unfold syncToR2. unfold_monad.
  destruct (truthy_opt (R2_BUCKET_NAME env)); cbn;
    [|by intros [= <-]].
  destruct (exec sandbox mountCheckCommand w) as [w1 [check|e]]; cbn;
    [|by intros [= <-]].
  assert (Hbackup : forall w',
    result (backup sandbox w') = Normal res -> success res = true ->
    exists pre r, calls (backup sandbox w')
                  = pre ++ [EvExec rsyncCommand (Normal r)]).
  { intros w' Hres Hs.
    destruct (backup_shape w') as [(e & He & _) | (r1 & r2 & r & Hc & Hr)].
    { congruence. }
    rewrite Hc. by exists [EvExec "mkdir -p /root/.openclaw" (Normal r1);
                        EvExec "mkdir -p /data/moltbot/openclaw" (Normal r2)], r. }
  destruct (includes (stdout check) "not mounted").
  - destruct (mount_total env w1) as [b Hb].
    destruct (mountR2Storage sandbox env w1) as [w2 c2 l2 res2].
    cbn in Hb. subst res2.
    destruct b; cbn; [|by intros [= <-]].
    specialize (Hbackup w2).
    destruct (backup sandbox w2) as [w3 c3 l3 [res'|e]]; cbn in *;
      [|by intros [= <-]].
    intros [= <-] Hs. destruct (Hbackup eq_refl Hs) as (pre & r & ->).
    exists (EvExec mountCheckCommand (Normal check) :: c2 ++ pre), r.
    cbn. by rewrite <- app_assoc.
  - specialize (Hbackup w1).
    destruct (backup sandbox w1) as [w3 c3 l3 [res'|e]]; cbn in *;
      [|by intros [= <-]].
    intros [= <-] Hs. destruct (Hbackup eq_refl Hs) as (pre & r & ->).
    exists (EvExec mountCheckCommand (Normal check) :: pre), r.
    by rewrite ?app_nil_r.
Qed.

End WithSandbox.
End GatewayFacts.

(** ** The code at explicit inputs *)

Module Scenarios.
Import Gateway Demo.

(** The registry lists a gateway entry left over from an earlier run
    before the running gateway: some gateway entry is running, yet
    [ensureMoltbotGateway] mounts the volume and launches a second
    gateway. *)
Lemma stale_entry_hides_running_gateway :
  ~ idleWhenSomeRunning healthy fullEnv [stale; live].
Proof.
  intros H.
  destruct (H [stale; live] [stale; live] eq_refl) as (_ & Hmount & Hstart).
  { exists live. split; [|done]. apply list_elem_of_further, list_elem_of_here. }
  vm_compute in Hstart. discriminate.
Qed.

Lemma ensure_idle_witness :
  listProcesses healthy [unrelated; live]
  = ([unrelated; live], Normal [unrelated; live])
  /\ firstGatewayRunning [unrelated; live]
  /\ result (ensureMoltbotGateway healthy fullEnv [unrelated; live]) = Normal tt
  /\ calls (ensureMoltbotGateway healthy fullEnv [unrelated; live])
     = [EvListProcesses (Normal [unrelated; live])]
  /\ count is_exec (calls (ensureMoltbotGateway healthy fullEnv [unrelated; live])) = 0
  /\ count is_mountBucket
       (calls (ensureMoltbotGateway healthy fullEnv [unrelated; live])) = 0
  /\ count is_startProcess
       (calls (ensureMoltbotGateway healthy fullEnv [unrelated; live])) = 0
  /\ final (ensureMoltbotGateway healthy fullEnv [unrelated; live])
     = [unrelated; live].
Proof.
  assert (Hl : listProcesses healthy [unrelated; live]
               = ([unrelated; live], Normal [unrelated; live])) by reflexivity.
  assert (Hf : firstGatewayRunning [unrelated; live]).
  { exists live. split; reflexivity. }
  split; [exact Hl|]. split; [exact Hf|].
  exact (GatewayFacts.ensure_idle_when_first_match_running
           healthy fullEnv _ _ _ Hl Hf).
Defined.

(** C2, as stated, fails on the short module.  With no provider key
    configured its [ensureMoltbotGateway] launches the gateway with
    ANTHROPIC_API_KEY set to the empty string (and with neither PATH
    nor HOME). *)
Lemma short_module_emits_empty_key :
  ~ launchesWithGoodEnv bareEnv
      (GatewayV1.ensureMoltbotGateway healthy bareEnv []).
Proof.
  intros H.
  destruct (H (mkStartOptions ["/usr/local/bin/start-openclaw.sh"]
                 (GatewayV1.launchEnv bareEnv) None)
              (Normal (launched
                         (mkStartOptions ["/usr/local/bin/start-openclaw.sh"]
                            (GatewayV1.launchEnv bareEnv) None) "running")))
    as (_ & _ & _ & Hkey & _).
  { apply (list_elem_of_lookup_2 _ 1). vm_compute. reflexivity. }
  destruct (proj1 (Hkey "")) as [Hcfg _]; [vm_compute; reflexivity|].
  discriminate Hcfg.
Qed.

Lemma launch_environment_witness :
  EvStartProcess (launchOptions fullEnv) (Normal (launched (launchOptions fullEnv) "running"))
    ∈ calls (ensureMoltbotGateway healthy fullEnv [])
  /\ launchEnvOk fullEnv (so_env (launchOptions fullEnv)).
Proof.
  assert (Hin :
    EvStartProcess (launchOptions fullEnv)
      (Normal (launched (launchOptions fullEnv) "running"))
      ∈ calls (ensureMoltbotGateway healthy fullEnv [])).
  { apply (list_elem_of_lookup_2 _ 7). vm_compute. reflexivity. }
  split; [exact Hin|].
  exact (GatewayFacts.launch_environment healthy fullEnv [] _ _ Hin).
Defined.

(** C3, as stated, fails on the short module.  Its
    [ensureMoltbotGateway] returns as soon as [startProcess] has
    returned: no delay, no second listing, and a normal return
    although the gateway is not running. *)
Lemma short_module_skips_verification :
  ~ verifiesLaunch (GatewayV1.ensureMoltbotGateway slowStart noStorageEnv []).
Proof.
  intros H.
  destruct (H (mkStartOptions ["/usr/local/bin/start-openclaw.sh"]
                 (GatewayV1.launchEnv noStorageEnv) None)
              (launched
                 (mkStartOptions ["/usr/local/bin/start-openclaw.sh"]
                    (GatewayV1.launchEnv noStorageEnv) None) "starting"))
    as (pre & r & Hc & _).
  { apply (list_elem_of_lookup_2 _ 1). vm_compute. reflexivity. }
  apply (f_equal length) in Hc. rewrite length_app in Hc.
  assert (Hlen :
    length (calls (GatewayV1.ensureMoltbotGateway slowStart noStorageEnv [])) = 2)
    by (vm_compute; reflexivity).
  rewrite Hlen in Hc. cbn in Hc. lia.
Qed.

Lemma launch_is_verified_witness :
  EvStartProcess (launchOptions noStorageEnv)
    (Normal (launched (launchOptions noStorageEnv) "starting"))
    ∈ calls (ensureMoltbotGateway slowStart noStorageEnv [])
  /\ exists pre r,
       calls (ensureMoltbotGateway slowStart noStorageEnv [])
       = pre ++ [EvStartProcess (launchOptions noStorageEnv)
                   (Normal (launched (launchOptions noStorageEnv) "starting"));
                 EvTimeout 2000; EvListProcesses r]
       /\ (noGatewayRunning r ->
           result (ensureMoltbotGateway slowStart noStorageEnv [])
           = Throw (Error "Gateway failed to start"))
       /\ (result (ensureMoltbotGateway slowStart noStorageEnv []) = Normal tt ->
           confirmedRunning r).
Proof.
  assert (Hin :
    EvStartProcess (launchOptions noStorageEnv)
      (Normal (launched (launchOptions noStorageEnv) "starting"))
      ∈ calls (ensureMoltbotGateway slowStart noStorageEnv [])).
  { apply (list_elem_of_lookup_2 _ 1). vm_compute. reflexivity. }
  split; [exact Hin|].
  exact (GatewayFacts.launch_is_verified slowStart noStorageEnv [] _ _ Hin).
Defined.

(** No gateway yet, and only the Anthropic key configured: one
    launch, with that key and without an OpenAI key; a second call
    right after launches nothing. *)
Example launch_once :
  result (ensureMoltbotGateway healthy fullEnv []) = Normal tt
  /\ count is_startProcess (calls (ensureMoltbotGateway healthy fullEnv [])) = 1
  /\ openclawEnv fullEnv !! "ANTHROPIC_API_KEY" = Some "sk-ant-123"
  /\ openclawEnv fullEnv !! "OPENAI_API_KEY" = None
  /\ count is_startProcess
       (calls (ensureMoltbotGateway healthy fullEnv
                 (final (ensureMoltbotGateway healthy fullEnv [])))) = 0.
Proof. split_and!; vm_compute; reflexivity. Qed.

(** The run of the witness above does end with the error. *)
Example slow_start_is_reported :
  result (ensureMoltbotGateway slowStart noStorageEnv [])
  = Throw (Error "Gateway failed to start").
Proof. vm_compute. reflexivity. Qed.

(** C4, as stated, fails on r2.ts.  When the volume mounter refuses,
    its [mountR2Storage] throws the error to its caller. *)
Lemma r2_mount_raises :
  ~ neverRaises (R2.mountR2Storage mountFails fullEnv []).
Proof.
  intros [a Ha]. vm_compute in Ha. discriminate.
Qed.

Lemma mount_never_raises_witness :
  EvMountBucket "MOLTBOT_BUCKET" "/data/moltbot" false (Throw (Error "MountError"))
    ∈ calls (mountR2Storage mountFails fullEnv [])
  /\ raised (EvMountBucket "MOLTBOT_BUCKET" "/data/moltbot" false
               (Throw (Error "MountError")) : Event string) = true
  /\ result (mountR2Storage mountFails fullEnv []) = Normal false.
Proof.
  assert (Hin :
    EvMountBucket "MOLTBOT_BUCKET" "/data/moltbot" false (Throw (Error "MountError"))
      ∈ calls (mountR2Storage mountFails fullEnv [])).
  { apply (list_elem_of_lookup_2 _ 2). vm_compute. reflexivity. }
  split; [exact Hin|]. split; [reflexivity|].
  exact (proj1 (proj2 (GatewayFacts.mount_never_raises mountFails fullEnv []))
           _ Hin eq_refl).
Defined.

Lemma mount_unconfigured_witness :
  (MOLTBOT_BUCKET noStorageEnv = None
   \/ truthy_opt (R2_BUCKET_NAME noStorageEnv) = false)
  /\ mountR2Storage healthy noStorageEnv [live]
     = mkOutcome [live] []
         [ConsoleLog "[R2] R2 configuration missing, using ephemeral storage" []]
         (Normal false)
  /\ R2.mountR2Storage healthy noStorageEnv [live]
     = mkOutcome [live] []
         [ConsoleLog "[R2] No R2 storage configured, skipping mount" []]
         (Normal tt).
Proof.
  assert (H : MOLTBOT_BUCKET noStorageEnv = None
              \/ truthy_opt (R2_BUCKET_NAME noStorageEnv) = false)
    by (left; reflexivity).
  split; [exact H|].
  exact (GatewayFacts.mount_unconfigured healthy noStorageEnv [live] H).
Defined.

Lemma sync_not_configured_witness :
  truthy_opt (R2_BUCKET_NAME noStorageEnv) = false
  /\ syncToR2 healthy noStorageEnv [live]
     = mkOutcome [live] [] [ConsoleLog "[SYNC] Starting R2 backup sync..." []]
         (Normal notConfigured)
  /\ success notConfigured = false
  /\ errorKind notConfigured = Some "not_configured"
  /\ GatewayV1.syncToR2 healthy noStorageEnv [live]
     = mkOutcome [live] [] []
         (Normal (GatewayV1.mkSyncResult false (Some "R2_BUCKET_NAME not set"))).
Proof.
  split; [reflexivity|].
  exact (GatewayFacts.sync_not_configured healthy noStorageEnv [live] eq_refl).
Defined.

(** C8, as stated, fails on the short module.  With the volume not
    mounted and the mounter refusing, its [syncToR2] runs the copy all
    the same and reports success. *)
Lemma short_module_copies_without_volume :
  ~ refusesWhenVolumeLost GatewayV1.success lostVolume []
      (GatewayV1.syncToR2 lostVolume fullEnv []).
Proof.
  intros H. destruct H as [_ Hcopy].
  { split.
    - eexists. split; vm_compute; reflexivity.
    - intros; reflexivity. }
  vm_compute in Hcopy. discriminate.
Qed.

Lemma sync_mount_unavailable_witness :
  truthy_opt (R2_BUCKET_NAME fullEnv) = true
  /\ exec lostVolume mountCheckCommand [live]
     = ([live], Normal (mkExecResult ("not mounted" +:+ newline) "" 0))
  /\ includes (stdout (mkExecResult ("not mounted" +:+ newline) "" 0)) "not mounted"
     = true
  /\ result (mountR2Storage lostVolume fullEnv [live]) = Normal false
  /\ result (syncToR2 lostVolume fullEnv [live]) = Normal notMounted
  /\ success notMounted = false
  /\ errorKind notMounted = Some "mount_unavailable"
  /\ calls (syncToR2 lostVolume fullEnv [live])
     = EvExec mountCheckCommand
         (Normal (mkExecResult ("not mounted" +:+ newline) "" 0))
         :: calls (mountR2Storage lostVolume fullEnv [live])
  /\ count is_copy (calls (syncToR2 lostVolume fullEnv [live])) = 0.
Proof.
  assert (H2 : exec lostVolume mountCheckCommand [live]
               = ([live], Normal (mkExecResult ("not mounted" +:+ newline) "" 0)))
    by (vm_compute; reflexivity).
  assert (H4 : result (mountR2Storage lostVolume fullEnv [live]) = Normal false)
    by (vm_compute; reflexivity).
  split; [reflexivity|]. split; [exact H2|]. split; [reflexivity|].
  split; [exact H4|].
  exact (GatewayFacts.sync_mount_unavailable lostVolume fullEnv [live] _ _
           eq_refl H2 eq_refl H4).
Defined.

(** C9, as stated, fails.  The copy writes the header and then a
    write error on its diagnostic channel: that is other output than
    the header alone, yet [syncToR2] reports success. *)
Lemma header_masks_copy_error :
  ~ judgedByHeaderOnly diskFull fullEnv [].
Proof.
  intros H.
  destruct (H (mkExecResult "" headerThenError 0)) as (res & Hres & _ & Hneg).
  { apply (list_elem_of_lookup_2 _ 3). vm_compute. reflexivity. }
  destruct Hneg as [Hs _].
  { unfold headerOnly. cbn [stderr]. intros [E|[E|E]]; vm_compute in E; discriminate. }
  vm_compute in Hres. injection Hres as <-. discriminate.
Qed.

Lemma copy_result_witness :
  EvExec rsyncCommand (Normal (mkExecResult "" headerThenError 0))
    ∈ calls (syncToR2 diskFull fullEnv [])
  /\ (stderr (mkExecResult "" headerThenError 0) = ""
      \/ includes (stderr (mkExecResult "" headerThenError 0))
           "sending incremental file list" = true)
  /\ exists t, result (syncToR2 diskFull fullEnv [])
               = Normal (mkSyncResult true None None (Some t)).
Proof.
  assert (Hin :
    EvExec rsyncCommand (Normal (mkExecResult "" headerThenError 0))
      ∈ calls (syncToR2 diskFull fullEnv [])).
  { apply (list_elem_of_lookup_2 _ 3). vm_compute. reflexivity. }
  assert (Hh : stderr (mkExecResult "" headerThenError 0) = ""
               \/ includes (stderr (mkExecResult "" headerThenError 0))
                    "sending incremental file list" = true)
    by (right; vm_compute; reflexivity).
  split; [exact Hin|]. split; [exact Hh|].
  exact (proj1 (GatewayFacts.copy_result diskFull fullEnv [] _ Hin) Hh).
Defined.

(** A diagnostic output without the header is reported as a failure. *)
Example plain_copy_error_is_reported :
  result (syncToR2 (sandbox (rsyncStderr "rsync: connection unexpectedly closed")
                      (Normal tt) "running") fullEnv [])
  = Normal (mkSyncResult false (Some "Sync failed")
              (Some "rsync: connection unexpectedly closed") None).
Proof. vm_compute. reflexivity. Qed.

Lemma registry_outage_witness :
  listProcesses registryDown [live]
  = ([live], Throw (Error "registry unavailable"))
  /\ result (findExistingMoltbotProcess registryDown [live]) = Normal None
  /\ exists rs,
       EvStartProcess (launchOptions fullEnv) rs
         ∈ calls (ensureMoltbotGateway registryDown fullEnv [live])
       /\ so_command (launchOptions fullEnv) = ["/usr/local/bin/start-openclaw.sh"].
Proof.
  split; [reflexivity|].
  exact (proj1 (proj2 (proj2 (GatewayFacts.registry_outage_is_absence
                                registryDown fullEnv [live]))) _ _ eq_refl).
Defined.

End Scenarios.

(** ** The other variants

    The short gateway module and the standalone r2.ts differ from the
    full module on the points below. *)

Module Variants.
Import Demo.

Section WithSandbox.
Context {W R2Bucket : Type}.
Variable sandbox : Sandbox W R2Bucket.

(** r2.ts: a failure of the setup command is logged and thrown
    again to the caller. *)
Lemma r2_mount_rethrows (env : MoltbotEnv R2Bucket) w bucket w1 e :
  MOLTBOT_BUCKET env = Some bucket ->
  truthy_opt (R2_BUCKET_NAME env) = true ->
  exec sandbox "mkdir -p /data/moltbot && chmod 777 /data/moltbot" w
  = (w1, Throw e) ->
  result (R2.mountR2Storage sandbox env w) = Throw e.
Proof.
  intros Hb Hn He. unfold R2.mountR2Storage. rewrite Hb, Hn.
  unfold_monad. cbn. rewrite He. done.
Qed.

(** r2.ts: a failure of the mounter is thrown again as well. *)
Lemma r2_mountBucket_rethrows (env : MoltbotEnv R2Bucket) w bucket w1 r1 w2 e :
  MOLTBOT_BUCKET env = Some bucket ->
  truthy_opt (R2_BUCKET_NAME env) = true ->
  exec sandbox "mkdir -p /data/moltbot && chmod 777 /data/moltbot" w
  = (w1, Normal r1) ->
  mountBucket sandbox bucket "/data/moltbot" false w1 = (w2, Throw e) ->
  result (R2.mountR2Storage sandbox env w) = Throw e.
Proof.
  intros Hb Hn H1 H2. unfold R2.mountR2Storage. rewrite Hb, Hn.
  unfold_monad. cbn. rewrite H1. cbn. rewrite H2. done.
Qed.

(** Short module: the key of the provider is always in the
    environment, with the empty string when it is not configured;
    PATH and HOME are not set. *)
Lemma v1_launch_env_empty_key (env : MoltbotEnv R2Bucket) :
  truthy_opt (ANTHROPIC_API_KEY env) = false ->
  GatewayV1.launchEnv env !! "ANTHROPIC_API_KEY" = Some ""
  /\ GatewayV1.launchEnv env !! "PATH" = None
  /\ GatewayV1.launchEnv env !! "HOME" = None.
Proof.
  intros H. unfold GatewayV1.launchEnv, GatewayV1.or_empty.
  destruct (ANTHROPIC_API_KEY env) as [v|]; cbn in H; [rewrite H|]; done.
Qed.

End WithSandbox.

(** Short module: the volume is mounted before the registry is looked
    at, also when the gateway is running. *)
Example v1_mounts_before_check :
  calls (GatewayV1.ensureMoltbotGateway healthy fullEnv [live])
  = [EvExec "mkdir -p /data/moltbot && chmod 777 /data/moltbot"
       (Normal (mkExecResult "" "" 0));
     EvMountBucket "MOLTBOT_BUCKET" "/data/moltbot" false (Normal tt);
     EvListProcesses (Normal [live])]
  /\ result (GatewayV1.ensureMoltbotGateway healthy fullEnv [live]) = Normal tt.
Proof. split; vm_compute; reflexivity. Qed.

(** Short module: the launch is not verified. *)
Example v1_launch_not_verified :
  result (GatewayV1.ensureMoltbotGateway slowStart noStorageEnv []) = Normal tt
  /\ length (calls (GatewayV1.ensureMoltbotGateway slowStart noStorageEnv [])) = 2.
Proof. split; vm_compute; reflexivity. Qed.

(** Short module: the copy does not delete on the destination, the
    mount is not checked and the diagnostic output is not looked at. *)
Example v1_copy_keeps_deleted_files :
  includes GatewayV1.rsyncCommand "--delete" = false
  /\ includes Gateway.rsyncCommand "--delete" = true
  /\ GatewayV1.syncToR2 lostVolume fullEnv []
     = mkOutcome [] [EvExec GatewayV1.rsyncCommand (Normal (mkExecResult "" "" 0))]
         [ConsoleLog "[SYNC] R2 sync completed:" [ArgStr ""]]
         (Normal (GatewayV1.mkSyncResult true None)).
Proof. split_and!; vm_compute; reflexivity. Qed.

End Variants.

(** ** Substrings *)

Module Strings.

Lemma append_cons (x : ascii) (a b : string) :
  String x a +:+ b = String x (a +:+ b).
Proof. reflexivity. Qed.

Lemma append_nil (b : string) : "" +:+ b = b.
Proof. reflexivity. Qed.

Lemma append_assoc (a b c : string) : (a +:+ b) +:+ c = a +:+ (b +:+ c).
Proof.
  induction a as [|x a IH]; [done|]. by rewrite !append_cons, IH.
Qed.

Lemma prefix_append (n s : string) :
  String.prefix n s = true <-> exists post, s = n +:+ post.
Proof.
  revert s. induction n as [|x n IH]; intros s.
  - split; [intros _; by exists s|]. intros _. by destruct s.
  - destruct s as [|y s]; cbn.
    + split; [discriminate|]. by intros (post & [=]).
    + destruct (ascii_dec x y) as [->|Hne].
      * rewrite IH. split.
        -- intros (post & ->). by exists post.
        -- intros (post & [= ->]). by exists post.
      * split; [discriminate|]. intros (post & [= ? ?]). congruence.
Qed.

(** [s.includes(needle)] holds exactly when [needle] sits somewhere in
    [s]. *)
Lemma includes_spec (s needle : string) :
  includes s needle = true <-> exists pre post, s = pre +:+ needle +:+ post.
Proof.
  induction s as [|x s IH]; cbn [includes].
  - destruct (String.prefix needle "") eqn:Hp.
    + split; [|done]. intros _. apply prefix_append in Hp as (post & Hp).
      by exists "", post.
    + split; [discriminate|]. intros (pre & post & Hs).
      destruct pre; [|discriminate]. cbn in Hs.
      assert (String.prefix needle "" = true) by (apply prefix_append; eauto).
      congruence.
  - destruct (String.prefix needle (String x s)) eqn:Hp.
    + split; [|done]. intros _. apply prefix_append in Hp as (post & Hp).
      by exists "", post.
    + rewrite IH. split.
      * intros (pre & post & ->). by exists (String x pre), post.
      * intros (pre & post & Hs). destruct pre as [|y pre]; cbn in Hs.
        -- assert (String.prefix needle (String x s) = true)
             by (apply prefix_append; eauto).
           congruence.
        -- injection Hs as -> ->. by exists pre, post.
Qed.

Lemma includes_trans (s a b : string) :
  includes s a = true -> includes a b = true -> includes s b = true.
Proof.
  rewrite !includes_spec. intros (p1 & q1 & ->) (p2 & q2 & ->).
  exists (p1 +:+ p2), (q2 +:+ q1). by rewrite !append_assoc.
Qed.

End Strings.

(** ** Further properties of the three modules *)

Module MoreFacts.
Section WithSandbox.
Context {W R2Bucket : Type}.
Variable sandbox : Sandbox W R2Bucket.
Import Gateway.
Implicit Types (env : MoltbotEnv R2Bucket) (w : W).

#[local] Arguments findExistingMoltbotProcess : simpl never.
#[local] Arguments mountR2Storage : simpl never.
#[local] Arguments launchOptions : simpl never.
#[local] Arguments openclawEnv : simpl never.
#[local] Arguments backup : simpl never.

(** *** The signature of the gateway *)

(** X1.  The signature test of the full module accepts exactly the
    processes the test of the short module accepts (a command
    containing 'openclaw') and those with an argument containing
    'openclaw': the test for 'start-openclaw.sh' adds nothing. *)
Theorem signature_extends_short_module (p : Process) :
  isMoltbotProcess p
  = GatewayV1.isMoltbotProcess p
    || opt_test (args p) (existsb (fun arg => includes arg "openclaw")).
Proof.
  unfold isMoltbotProcess, GatewayV1.isMoltbotProcess.
  destruct (command p) as [c|]; cbn [opt_test]; [|done].
  destruct (includes c "start-openclaw.sh") eqn:Hs; [|done].
  rewrite (Strings.includes_trans c "start-openclaw.sh" "openclaw" Hs); [done|].
  by vm_compute.
Qed.

Lemma find_split {A} (f : A -> bool) (l : list A) :
  match find f l with
  | Some x => exists pre post,
                l = pre ++ x :: post /\ f x = true
                /\ Forall (fun y => f y = false) pre
  | None => Forall (fun y => f y = false) l
  end.
Proof.
  induction l as [|y l IH]; cbn; [done|].
  destruct (f y) eqn:Hy.
  - by exists [], l.
  - destruct (find f l) as [x|].
    + destruct IH as (pre & post & -> & Hx & Hpre).
      exists (y :: pre), post. split; [done|]. split; [done|]. by constructor.
    + by constructor.
Qed.

(** X2.  When the registry answers, [findExistingMoltbotProcess]
    returns [null] exactly when no entry carries the signature;
    otherwise it returns the pid and the status of the first entry, in
    the order of the listing, that carries it. *)
Theorem find_returns_first_match w w' procs :
  listProcesses sandbox w = (w', Normal procs) ->
  (result (findExistingMoltbotProcess sandbox w) = Normal None
   <-> Forall (fun p => isMoltbotProcess p = false) procs)
  /\ (forall f,
        result (findExistingMoltbotProcess sandbox w) = Normal (Some f) ->
        exists pre p post,
          procs = pre ++ p :: post
          /\ Forall (fun q => isMoltbotProcess q = false) pre
          /\ isMoltbotProcess p = true
          /\ f = mkFound (pid p) (status p)).
Proof.
  intros Hl. rewrite (GatewayFacts.find_returns _ _ _ _ Hl). cbn [result].
  pose proof (find_split isMoltbotProcess procs) as Hf.
  destruct (find isMoltbotProcess procs) as [p|] eqn:Hfind; cbn.
  - destruct Hf as (pre & post & -> & Hp & Hpre). split.
    + split; [discriminate|]. intros Hall.
      apply Forall_app in Hall as [_ Hall]. apply Forall_cons in Hall as [Hp' _].
      congruence.
    + intros f [= <-]. by exists pre, p, post.
  - split; [done|]. discriminate.
Qed.

(** *** The environment of the gateway *)

(** X3.  The environment built for the gateway holds no key besides
    NODE_ENV, PATH, HOME, ANTHROPIC_API_KEY, OPENAI_API_KEY and
    OPENCLAW_GATEWAY_TOKEN: no other setting of the configuration
    reaches the gateway. *)
Theorem launch_env_keys env (k : string) :
  is_Some (openclawEnv env !! k) -> k ∈ launchKeys.
Proof.
  unfold openclawEnv, launchKeys.
  rewrite !GatewayFacts.lookup_set_if_truthy.
  destruct (String.eqb_spec "OPENCLAW_GATEWAY_TOKEN" k) as [<-|H1];
    [intros _; set_solver|].
  destruct (String.eqb_spec "OPENAI_API_KEY" k) as [<-|H2];
    [intros _; set_solver|].
  destruct (String.eqb_spec "ANTHROPIC_API_KEY" k) as [<-|H3];
    [intros _; set_solver|].
  rewrite !andb_false_r.
  intros [v Hv].
  apply lookup_insert_Some in Hv as [[<- _]|[_ Hv]]; [set_solver|].
  apply lookup_insert_Some in Hv as [[<- _]|[_ Hv]]; [set_solver|].
  apply lookup_insert_Some in Hv as [[<- _]|[_ Hv]]; [set_solver|].
  by rewrite lookup_empty in Hv.
Qed.

(** *** Mounting *)

(** X4.  [mountR2Storage] returns [true] exactly when its six steps
    all returned, in this order: creation of the mount point, change
    of its permissions, read-write mount of the configured bucket at
    /data/moltbot, creation of the state directory, and the two
    symbolic links. *)
Theorem mount_true_iff_all_steps env w :
  result (Gateway.mountR2Storage sandbox env w) = Normal true
  <-> exists bucket r1 r2 r4 r5 r6,
        MOLTBOT_BUCKET env = Some bucket
        /\ calls (Gateway.mountR2Storage sandbox env w)
           = [EvExec "mkdir -p /data/moltbot" (Normal r1);
              EvExec "chmod 777 /data/moltbot" (Normal r2);
              EvMountBucket bucket "/data/moltbot" false (Normal tt);
              EvExec "mkdir -p /data/moltbot/openclaw" (Normal r4);
              EvExec "ln -sf /data/moltbot/openclaw /root/.openclaw" (Normal r5);
              EvExec "ln -sf /data/moltbot/openclaw /root/clawd/data" (Normal r6)].
Proof.
  unfold Gateway.mountR2Storage.
  destruct (truthy_opt (R2_BUCKET_NAME env)), (MOLTBOT_BUCKET env) as [bucket|];
    run.
  all: split; [try discriminate|].
  all: try (intros (? & ? & ? & ? & ? & ? & _ & [=]); fail).
  - intros _. repeat match goal with u : unit |- _ => destruct u end.
    by eexists bucket, _, _, _, _, _.
  - done.
Qed.

(** X5.  [mountR2Storage] asks for a mount at most once, for the
    configured bucket, at /data/moltbot, read-write, and only after the
    creation of the mount point and the change of its permissions have
    both returned. *)
Theorem mount_call_is_read_write_after_setup env w b path ro r :
  EvMountBucket b path ro r ∈ calls (Gateway.mountR2Storage sandbox env w) ->
  MOLTBOT_BUCKET env = Some b /\ path = "/data/moltbot" /\ ro = false
  /\ exists r1 r2 post,
       calls (Gateway.mountR2Storage sandbox env w)
       = EvExec "mkdir -p /data/moltbot" (Normal r1)
           :: EvExec "chmod 777 /data/moltbot" (Normal r2)
           :: EvMountBucket b path ro r :: post
       /\ count is_mountBucket post = 0.
Proof.
  unfold Gateway.mountR2Storage.
  destruct (truthy_opt (R2_BUCKET_NAME env)), (MOLTBOT_BUCKET env) as [bucket|];
    run; intros Hin; in_cases Hin.
  all: injection Hin as -> -> -> ->.
  all: do 3 (split; [reflexivity|]).
  all: by do 3 eexists.
Qed.

(** *** The supervisor *)

Lemma count_app (p : Event R2Bucket -> bool) (l1 l2 : list (Event R2Bucket)) :
  count p (l1 ++ l2) = count p l1 + count p l2.
Proof. unfold count. by rewrite List.filter_app, length_app. Qed.

(** X6.  [ensureMoltbotGateway] calls [startProcess] at most once; it
    calls it exactly once when the first listing does not confirm a
    running gateway, whatever the mount attempt did; and every such call
    names the launcher script and the working directory /root/clawd. *)
Theorem launches_once_unless_running env w :
  count is_startProcess (calls (ensureMoltbotGateway sandbox env w)) <= 1
  /\ (~ confirmedRunning (listProcesses sandbox w).2 ->
      count is_startProcess (calls (ensureMoltbotGateway sandbox env w)) = 1)
  /\ (forall opts rs,
        EvStartProcess opts rs ∈ calls (ensureMoltbotGateway sandbox env w) ->
        so_command opts = ["/usr/local/bin/start-openclaw.sh"]
        /\ so_workingDirectory opts = Some "/root/clawd").
Proof.
  assert (Hcount :
    (confirmedRunning (listProcesses sandbox w).2
     /\ count is_startProcess (calls (ensureMoltbotGateway sandbox env w)) = 0)
    \/ count is_startProcess (calls (ensureMoltbotGateway sandbox env w)) = 1).
  { destruct (GatewayFacts.ensure_shape sandbox env w)
      as (r0 & -> & [(Hrun & _ & Hc) | (_ & cm & rs & Hcm & Hcase)]).
    { left. split; [done|]. by rewrite Hc. }
    right.
    assert (Hzero : count is_startProcess cm = 0)
      by (by apply GatewayFacts.count_none).
    destruct Hcase as [(e & _ & -> & _) | (proc & r & _ & -> & _)].
    all: change (EvListProcesses ?r :: ?l) with ([EvListProcesses r] ++ l).
    all: by rewrite !count_app, Hzero. }
  split_and!.
  - destruct Hcount as [[_ ->]| ->]; lia.
  - intros Hno. by destruct Hcount as [[? _]|?].
  - intros opts rs Hin.
    by destruct (GatewayFacts.start_in_calls sandbox env w _ _ Hin)
      as (_ & _ & _ & -> & _).
Qed.

(** X7.  An exception leaves [ensureMoltbotGateway] in two cases only:
    [startProcess] threw it, as the last call of the run; or it is
    [Error('Gateway failed to start')], after a launch, the delay and a
    listing that did not confirm a running gateway.  Failures of the
    mount and of the registry never reach the caller. *)
Theorem only_launch_and_verification_errors_escape env w e :
  result (ensureMoltbotGateway sandbox env w) = Throw e ->
  (exists pre,
     calls (ensureMoltbotGateway sandbox env w)
     = pre ++ [EvStartProcess (launchOptions env) (Throw e)])
  \/ (e = Error "Gateway failed to start"
      /\ exists pre proc r,
           calls (ensureMoltbotGateway sandbox env w)
           = pre ++ [EvStartProcess (launchOptions env) (Normal proc);
                     EvTimeout 2000; EvListProcesses r]
           /\ ~ confirmedRunning r).
Proof.
  intros Hres.
  destruct (GatewayFacts.ensure_shape sandbox env w)
    as (r0 & _ & [(_ & Hr & _) | (_ & cm & rs & _ & Hcase)]).
  { congruence. }
  destruct Hcase as [(e' & -> & Hc & Hr) | (proc & r & -> & Hc & Hr)].
  - left. exists (EvListProcesses r0 :: cm). rewrite Hc.
    replace e' with e by congruence. done.
  - right. destruct Hr as [[_ Hr]|[Hno Hr]]; [congruence|].
    split; [congruence|]. exists (EvListProcesses r0 :: cm), proc, r.
    by rewrite Hc.
Qed.

Lemma last_after {A} (l : list A) (x : A) : last (l ++ [x]) = Some x.
Proof. apply last_snoc. Qed.

(** X8.  Whenever [ensureMoltbotGateway] throws, the last line it
    wrote on the console is the error line
    '[GATEWAY] Failed to start Moltbot:' with the exception thrown. *)
Theorem failure_is_logged_before_it_is_thrown env w e :
  result (ensureMoltbotGateway sandbox env w) = Throw e ->
  last (console (ensureMoltbotGateway sandbox env w))
  = Some (ConsoleError "[GATEWAY] Failed to start Moltbot:" [ArgExn e]).
Proof.
  unfold ensureMoltbotGateway. unfold_monad.
  destruct (GatewayFacts.find_total sandbox w) as (r0 & found & _ & Hr0 & _).
  destruct (findExistingMoltbotProcess sandbox w) as [w1 c1 l1 res1].
  cbn in Hr0. subst res1.
  destruct (isRunning found); cbn; [discriminate|].
  destruct (GatewayFacts.mount_total sandbox env w1) as [b Hb].
  destruct (mountR2Storage sandbox env w1) as [w2 c2 l2 res2].
  cbn in Hb. subst res2.
  destruct b; cbn.
  all: destruct (startProcess sandbox (launchOptions env) w2)
         as [w3 [proc|e']]; cbn.
  2, 4: intros [= ->]; rewrite ?app_assoc; apply last_snoc.
  all: destruct (GatewayFacts.find_total sandbox (setTimeout sandbox 2000 w3))
         as (r & verify & _ & Hr & _).
  all: destruct (findExistingMoltbotProcess sandbox (setTimeout sandbox 2000 w3))
         as [w4 c4 l4 res4].
  all: cbn in Hr; subst res4.
  all: destruct (isRunning verify); cbn; [discriminate|].
  all: intros [= <-].
  all: rewrite ?app_assoc, ?app_comm_cons; apply last_snoc.
Qed.

Lemma idle_run env w w' r :
  listProcesses sandbox w = (w', r) ->
  confirmedRunning r ->
  calls (ensureMoltbotGateway sandbox env w) = [EvListProcesses r]
  /\ result (ensureMoltbotGateway sandbox env w) = Normal tt
  /\ final (ensureMoltbotGateway sandbox env w) = w'.
Proof.
  intros Hl (procs & -> & p & Hf & Hs).
  unfold ensureMoltbotGateway. unfold_monad.
  rewrite (GatewayFacts.find_returns _ _ _ _ Hl), Hf. cbn. rewrite Hs. by cbn.
Qed.

Lemma normal_return_is_confirmed env w :
  result (ensureMoltbotGateway sandbox env w) = Normal tt ->
  exists w0 r,
    listProcesses sandbox w0 = (final (ensureMoltbotGateway sandbox env w), r)
    /\ confirmedRunning r.
Proof.
  unfold ensureMoltbotGateway. unfold_monad.
  destruct (GatewayFacts.find_total sandbox w)
    as (r0 & found & _ & Hr0 & Hl0 & Hrun0).
  destruct (findExistingMoltbotProcess sandbox w) as [w1 c1 l1 res1].
  cbn in Hr0, Hl0. subst res1.
  destruct (isRunning found); cbn.
  { intros _. exists w, r0. split; [done|]. by apply Hrun0. }
  destruct (GatewayFacts.mount_total sandbox env w1) as [b Hb].
  destruct (mountR2Storage sandbox env w1) as [w2 c2 l2 res2].
  cbn in Hb. subst res2.
  destruct b; cbn.
  all: destruct (startProcess sandbox (launchOptions env) w2)
         as [w3 [proc|e']]; cbn; [|discriminate].
  all: destruct (GatewayFacts.find_total sandbox (setTimeout sandbox 2000 w3))
         as (r & verify & _ & Hr & Hl & Hrun).
  all: destruct (findExistingMoltbotProcess sandbox (setTimeout sandbox 2000 w3))
         as [w4 c4 l4 res4].
  all: cbn in Hr, Hl; subst res4.
  all: destruct (isRunning verify); cbn; [|discriminate].
  all: intros _; exists (setTimeout sandbox 2000 w3), r.
  all: split; [done|]; by apply Hrun.
Qed.

(** X9.  With a registry whose listing is stable, a call of
    [ensureMoltbotGateway] that follows one that returned normally only
    lists the registry and returns: it mounts nothing, launches nothing
    and leaves the world as it found it. *)
Theorem second_call_is_idle env w :
  stableListing sandbox ->
  result (ensureMoltbotGateway sandbox env w) = Normal tt ->
  exists r,
    calls (ensureMoltbotGateway sandbox env
             (final (ensureMoltbotGateway sandbox env w)))
    = [EvListProcesses r]
    /\ result (ensureMoltbotGateway sandbox env
                 (final (ensureMoltbotGateway sandbox env w))) = Normal tt
    /\ final (ensureMoltbotGateway sandbox env
                (final (ensureMoltbotGateway sandbox env w)))
       = final (ensureMoltbotGateway sandbox env w).
Proof.
  intros Hstable Hres.
  destruct (normal_return_is_confirmed env w Hres) as (w0 & r & Hl & Hrun).
  exists r. apply idle_run; [|done]. by apply (Hstable w0).
Qed.

(** *** The sync *)

Lemma backup_calls w ev :
  ev ∈ calls (backup sandbox w) ->
  is_mountBucket ev = false
  /\ (raised ev = true -> exists e, result (backup sandbox w) = Throw e)
  /\ (forall r, ev = EvExec rsyncCommand r ->
        exists r1 r2,
          calls (backup sandbox w)
          = [EvExec "mkdir -p /root/.openclaw" (Normal r1);
             EvExec "mkdir -p /data/moltbot/openclaw" (Normal r2);
             EvExec rsyncCommand r]).
Proof.
  unfold backup. unfold_monad.
  destruct (exec sandbox "mkdir -p /root/.openclaw" w) as [w1 [r1|e]]; cbn.
  2: { intros Hin; in_cases Hin; subst ev.
       split; [done|]. split; [eauto|]. intros r [=]. }
  destruct (exec sandbox "mkdir -p /data/moltbot/openclaw" w1) as [w2 [r2|e]]; cbn.
  2: { intros Hin; in_cases Hin; subst ev.
       all: split; [done|]; split; [eauto|intros r; discriminate]. }
  destruct (exec sandbox rsyncCommand w2) as [w3 [r|e]]; cbn.
  2: { intros Hin; in_cases Hin; subst ev.
       1, 2: split; [done|]; split; [eauto|intros r; discriminate].
       split; [done|]. split; [eauto|]. intros r [= <-]. by exists r1, r2. }
  destruct (isRsyncError r); cbn.
  all: intros Hin; in_cases Hin; subst ev.
  all: split; [done|]; split; [discriminate|].
  all: try (intros r'; discriminate).
  all: intros r' [= <-]; by exists r1, r2.
Qed.

Lemma backup_result w :
  (exists e, result (backup sandbox w) = Throw e)
  \/ (exists res, result (backup sandbox w) = Normal res /\ wellFormedResult res).
Proof.
  destruct (GatewayFacts.backup_shape sandbox w)
    as [(e & He & _) | (r1 & r2 & r & _ & Hr)]; [by left; exists e|].
  right. eexists. split; [exact Hr|].
  destruct (isRsyncError r); [right|left]; cbn; eauto 10.
Qed.

(** X10.  [syncToR2] never throws: it always returns a result, which
    is either a success with a time stamp and neither error nor
    details, or a failure with an error text and details and no time
    stamp. *)
Theorem sync_always_returns_a_result env w :
  exists res,
    result (syncToR2 sandbox env w) = Normal res /\ wellFormedResult res.
Proof.
  assert (Hfail : forall d, wellFormedResult (syncFailed d))
    by (intros d; right; cbn; eauto 10).
  unfold syncToR2. unfold_monad.
  destruct (truthy_opt (R2_BUCKET_NAME env)); cbn.
  2: { eexists. split; [done|]. right. cbn. eauto 10. }
  destruct (exec sandbox mountCheckCommand w) as [w1 [check|e]]; cbn;
    [|by eexists].
  destruct (includes (stdout check) "not mounted").
  - destruct (GatewayFacts.mount_total sandbox env w1) as [b Hb].
    destruct (mountR2Storage sandbox env w1) as [w2 c2 l2 res2].
    cbn in Hb. subst res2. destruct b; cbn.
    + destruct (backup_result w2) as [(e & He)|(res & He & Hwf)];
        destruct (backup sandbox w2) as [w3 c3 l3 res3]; cbn in *; subst res3;
        cbn; by eexists.
    + eexists. split; [done|]. right. cbn. eauto 10.
  - destruct (backup_result w1) as [(e & He)|(res & He & Hwf)];
      destruct (backup sandbox w1) as [w3 c3 l3 res3]; cbn in *; subst res3;
      cbn; by eexists.
Qed.

(** X11.  Whenever a call to the sandbox made during [syncToR2] has
    thrown (the query of the mount table, a step of the mount attempt,
    the creation of a directory or the copy), the result reports a
    failure. *)
Theorem any_exception_fails_the_sync env w ev :
  ev ∈ calls (syncToR2 sandbox env w) ->
  raised ev = true ->
  exists res, result (syncToR2 sandbox env w) = Normal res /\ success res = false.
Proof.
  unfold syncToR2. unfold_monad.
  destruct (truthy_opt (R2_BUCKET_NAME env)); cbn;
    [|intros Hin; in_cases Hin].
  destruct (exec sandbox mountCheckCommand w) as [w1 [check|e]]; cbn;
    [|intros _ _; by eexists].
  destruct (includes (stdout check) "not mounted").
  - pose proof (GatewayFacts.mount_calls sandbox env w1) as Hmc.
    destruct (GatewayFacts.mount_total sandbox env w1) as [b Hb].
    destruct (mountR2Storage sandbox env w1) as [w2 c2 l2 res2].
    cbn in Hmc, Hb. subst res2. destruct b; cbn.
    + pose proof (backup_calls w2) as Hbc.
      destruct (backup sandbox w2) as [w3 c3 l3 [res|e]]; cbn in *.
      * intros Hin Hr. rewrite ?app_nil_r in Hin.
        apply elem_of_cons in Hin as [->|Hin]; [discriminate|].
        apply elem_of_app in Hin as [Hin|Hin].
        -- destruct (Hmc _ Hin) as (_ & _ & H). by specialize (H Hr).
        -- destruct (Hbc _ Hin) as (_ & H & _). by destruct (H Hr).
      * intros _ _. by eexists.
    + intros _ _. by eexists.
  - pose proof (backup_calls w1) as Hbc.
    destruct (backup sandbox w1) as [w3 c3 l3 [res|e]]; cbn in *.
    + intros Hin Hr. rewrite ?app_nil_r in Hin.
      apply elem_of_cons in Hin as [->|Hin]; [discriminate|].
      destruct (Hbc _ Hin) as (_ & H & _). by destruct (H Hr).
    + intros _ _. by eexists.
Qed.

(** X12.  [syncToR2] calls the volume mounter only when the query of
    the mount table has returned and its output contains
    'not mounted'. *)
Theorem sync_mounts_only_a_lost_volume env w b path ro r :
  EvMountBucket b path ro r ∈ calls (syncToR2 sandbox env w) ->
  exists w1 check,
    exec sandbox mountCheckCommand w = (w1, Normal check)
    /\ includes (stdout check) "not mounted" = true.
Proof.
  unfold syncToR2. unfold_monad.
  destruct (truthy_opt (R2_BUCKET_NAME env)); cbn;
    [|intros Hin; in_cases Hin].
  destruct (exec sandbox mountCheckCommand w) as [w1 [check|e]]; cbn;
    [|intros Hin; in_cases Hin].
  destruct (includes (stdout check) "not mounted") eqn:Hinc;
    [intros _; by exists w1, check|].
  pose proof (backup_calls w1) as Hbc.
  destruct (backup sandbox w1) as [w3 c3 l3 [res|e]]; cbn in *.
  all: intros Hin; rewrite ?app_nil_r in Hin.
  all: apply elem_of_cons in Hin as [Hin|Hin]; [discriminate|].
  all: by destruct (Hbc _ Hin) as ([=] & _).
Qed.

(** X13.  When [syncToR2] runs the copy, the copy is its last call to
    the sandbox and comes right after the creation of the local and of
    the remote state directory, both of which returned. *)
Theorem copy_is_the_last_call env w r :
  EvExec rsyncCommand r ∈ calls (syncToR2 sandbox env w) ->
  exists pre r1 r2,
    calls (syncToR2 sandbox env w)
    = pre ++ [EvExec "mkdir -p /root/.openclaw" (Normal r1);
              EvExec "mkdir -p /data/moltbot/openclaw" (Normal r2);
              EvExec rsyncCommand r].
Proof.
  unfold syncToR2. unfold_monad.
  destruct (truthy_opt (R2_BUCKET_NAME env)); cbn;
    [|intros Hin; in_cases Hin].
  destruct (exec sandbox mountCheckCommand w) as [w1 [check|e]]; cbn;
    [|intros Hin; in_cases Hin].
  destruct (includes (stdout check) "not mounted").
  - pose proof (GatewayFacts.mount_calls sandbox env w1) as Hmc.
    destruct (GatewayFacts.mount_total sandbox env w1) as [b Hb].
    destruct (mountR2Storage sandbox env w1) as [w2 c2 l2 res2].
    cbn in Hmc, Hb. subst res2.
    assert (Hc2 : EvExec rsyncCommand r ∉ c2).
    { intros Hin. by destruct (Hmc _ Hin) as (_ & ? & _). }
    destruct b; cbn.
    + pose proof (backup_calls w2) as Hbc.
      destruct (backup sandbox w2) as [w3 c3 l3 [res|e]]; cbn in *.
      all: intros Hin; rewrite ?app_nil_r in Hin.
      all: apply elem_of_cons in Hin as [Hin|Hin]; [discriminate|].
      all: apply elem_of_app in Hin as [Hin|Hin]; [done|].
      all: destruct (Hbc _ Hin) as (_ & _ & Hlast).
      all: destruct (Hlast r eq_refl) as (r1 & r2 & ->).
      all: exists (EvExec mountCheckCommand (Normal check) :: c2), r1, r2.
      all: by rewrite ?app_nil_r.
    + intros Hin. rewrite ?app_nil_r in Hin.
      apply elem_of_cons in Hin as [Hin|Hin]; [discriminate|]. done.
  - pose proof (backup_calls w1) as Hbc.
    destruct (backup sandbox w1) as [w3 c3 l3 [res|e]]; cbn in *.
    all: intros Hin; rewrite ?app_nil_r in Hin.
    all: apply elem_of_cons in Hin as [Hin|Hin]; [discriminate|].
    all: destruct (Hbc _ Hin) as (_ & _ & Hlast).
    all: destruct (Hlast r eq_refl) as (r1 & r2 & ->).
    all: exists [EvExec mountCheckCommand (Normal check)], r1, r2.
    all: by rewrite ?app_nil_r.
Qed.

(** X14.  When the volume is found not mounted and the mount attempt
    returns [true], [syncToR2] goes on with the copy step in the world
    the mount left: its calls are the query, those of the mount and
    those of the copy step, and its result is that of the copy step,
    an exception of which becomes the failure 'Sync failed' with the
    message of the exception. *)
Theorem remounted_volume_is_synced env w w1 check :
  truthy_opt (R2_BUCKET_NAME env) = true ->
  exec sandbox mountCheckCommand w = (w1, Normal check) ->
  includes (stdout check) "not mounted" = true ->
  result (mountR2Storage sandbox env w1) = Normal true ->
  calls (syncToR2 sandbox env w)
  = EvExec mountCheckCommand (Normal check)
      :: calls (mountR2Storage sandbox env w1)
      ++ calls (backup sandbox (final (mountR2Storage sandbox env w1)))
  /\ result (syncToR2 sandbox env w)
     = match result (backup sandbox (final (mountR2Storage sandbox env w1))) with
       | Normal res => Normal res
       | Throw e => Normal (syncFailed (message_of e))
       end.
Proof.
  intros Hn Hcheck Hinc Hm.
  unfold syncToR2. unfold_monad. rewrite Hn. cbn. rewrite Hcheck. cbn.
  rewrite Hinc.
  destruct (mountR2Storage sandbox env w1) as [w2 c2 l2 res2].
  cbn in Hm. subst res2. cbn.
  destruct (backup sandbox w2) as [w3 c3 l3 [res|e]]; cbn.
  all: by rewrite ?app_nil_r.
Qed.

Lemma backup_cases w :
  (exists e pre ev,
     result (backup sandbox w) = Throw e
     /\ calls (backup sandbox w) = pre ++ [ev] /\ raisedWith ev e)
  \/ (exists r1 r2 r,
        calls (backup sandbox w)
        = [EvExec "mkdir -p /root/.openclaw" (Normal r1);
           EvExec "mkdir -p /data/moltbot/openclaw" (Normal r2);
           EvExec rsyncCommand (Normal r)]
        /\ exists t,
             result (backup sandbox w)
             = Normal (if isRsyncError r then syncFailed (stderr r)
                       else mkSyncResult true None None (Some t))).
Proof.
  unfold backup. unfold_monad.
  destruct (exec sandbox "mkdir -p /root/.openclaw" w) as [w1 [r1|e]]; cbn.
  2: { left. by exists e, [], (EvExec "mkdir -p /root/.openclaw" (Throw e)). }
  destruct (exec sandbox "mkdir -p /data/moltbot/openclaw" w1) as [w2 [r2|e]]; cbn.
  2: { left. by exists e, [EvExec "mkdir -p /root/.openclaw" (Normal r1)],
                   (EvExec "mkdir -p /data/moltbot/openclaw" (Throw e)). }
  destruct (exec sandbox rsyncCommand w2) as [w3 [r|e]]; cbn.
  2: { left. by exists e, [EvExec "mkdir -p /root/.openclaw" (Normal r1);
                        EvExec "mkdir -p /data/moltbot/openclaw" (Normal r2)],
                   (EvExec rsyncCommand (Throw e)). }
  right. exists r1, r2, r.
  destruct (isRsyncError r); cbn;
    (split; [reflexivity|by exists (now sandbox w3)]).
Qed.

(** X20.  When [syncToR2] reports the failure 'Sync failed', either the
    copy was its last call, returned, and its diagnostic output is the
    [details]; or the last call of the run threw, and the [details] are
    the message of that exception ('Unknown error' when what was thrown
    is not an [Error]). *)
Theorem sync_failed_details env w res :
  result (syncToR2 sandbox env w) = Normal res ->
  error res = Some "Sync failed" ->
  (exists pre r,
     calls (syncToR2 sandbox env w) = pre ++ [EvExec rsyncCommand (Normal r)]
     /\ isRsyncError r = true /\ details res = Some (stderr r))
  \/ (exists pre ev e,
        calls (syncToR2 sandbox env w) = pre ++ [ev]
        /\ raisedWith ev e /\ details res = Some (message_of e)).
Proof.
  unfold syncToR2. unfold_monad.
  destruct (truthy_opt (R2_BUCKET_NAME env)); cbn;
    [|intros [= <-]; discriminate].
  destruct (exec sandbox mountCheckCommand w) as [w1 [check|e]]; cbn.
  2: { intros [= <-] _. right.
       by exists [], (EvExec mountCheckCommand (Throw e)), e. }
  assert (Hb : forall w' (cs : list (Event R2Bucket)),
    match backup sandbox w' with
    | mkOutcome _ c3 _ (Normal res') =>
        error res' = Some "Sync failed" ->
        exists pre r, cs ++ c3 = pre ++ [EvExec rsyncCommand (Normal r)]
                      /\ isRsyncError r = true /\ details res' = Some (stderr r)
    | mkOutcome _ c3 _ (Throw e) =>
        exists pre ev, cs ++ c3 = pre ++ [ev] /\ raisedWith ev e
    end).
  { intros w' cs. pose proof (backup_cases w') as Hc.
    destruct (backup sandbox w') as [w3 c3 l3 [res'|e]]; cbn in Hc.
    - destruct Hc as [(e & _ & _ & [=] & _)|(r1 & r2 & r & -> & t & [= ->])].
      intros Herr.
      exists (cs ++ [EvExec "mkdir -p /root/.openclaw" (Normal r1);
                     EvExec "mkdir -p /data/moltbot/openclaw" (Normal r2)]), r.
      split; [by rewrite <- app_assoc|].
      by destruct (isRsyncError r).
    - destruct Hc as [(e' & pre & ev & [= <-] & -> & Hev)|(? & ? & ? & _ & ? & [=])].
      exists (cs ++ pre), ev. by rewrite app_assoc. }
  destruct (includes (stdout check) "not mounted").
  - destruct (GatewayFacts.mount_total sandbox env w1) as [b Hm].
    destruct (mountR2Storage sandbox env w1) as [w2 c2 l2 res2].
    cbn in Hm. subst res2. destruct b; cbn; [|intros [= <-]; discriminate].
    specialize (Hb w2 (EvExec mountCheckCommand (Normal check) :: c2)).
    destruct (backup sandbox w2) as [w3 c3 l3 [res'|e]]; cbn in *.
    + intros [= <-] Herr. left. rewrite ?app_nil_r. by apply Hb.
    + intros [= <-] _. right. rewrite ?app_nil_r.
      destruct Hb as (pre & ev & -> & Hev). by exists pre, ev, e.
  - specialize (Hb w1 [EvExec mountCheckCommand (Normal check)]).
    destruct (backup sandbox w1) as [w3 c3 l3 [res'|e]]; cbn in *.
    + intros [= <-] Herr. left. rewrite ?app_nil_r. by apply Hb.
    + intros [= <-] _. right. rewrite ?app_nil_r.
      destruct Hb as (pre & ev & -> & Hev). by exists pre, ev, e.
Qed.

(** *** The short module *)

#[local] Arguments GatewayV1.mountStep : simpl never.
#[local] Arguments GatewayV1.launchEnv : simpl never.
#[local] Arguments GatewayV1.findExistingMoltbotProcess : simpl never.

Lemma v1_mountStep_calls env w ev :
  ev ∈ calls (GatewayV1.mountStep sandbox env w) -> is_startProcess ev = false.
Proof.
  unfold GatewayV1.mountStep.
  destruct (MOLTBOT_BUCKET env), (truthy_opt (R2_BUCKET_NAME env));
    run; intros Hin; in_cases Hin; by subst ev.
Qed.

(** X15.  The [ensureMoltbotGateway] of the short module throws only
    what [startProcess] threw, as the last call of the run: failures of
    the mount and of the registry are absorbed. *)
Theorem v1_only_launch_errors_escape env w e :
  result (GatewayV1.ensureMoltbotGateway sandbox env w) = Throw e ->
  exists pre,
    calls (GatewayV1.ensureMoltbotGateway sandbox env w)
    = pre ++ [EvStartProcess
                (mkStartOptions ["/usr/local/bin/start-openclaw.sh"]
                   (GatewayV1.launchEnv env) None)
                (Throw e)].
Proof.
  unfold GatewayV1.ensureMoltbotGateway. unfold_monad.
  pose proof (GatewayFacts.v1_mountStep_total sandbox env w) as Hm.
  destruct (GatewayV1.mountStep sandbox env w) as [w1 c1 l1 res1].
  cbn in Hm. subst res1.
  destruct (GatewayFacts.v1_find_total sandbox w1) as [found Hf].
  destruct (GatewayV1.findExistingMoltbotProcess sandbox w1) as [w2 c2 l2 res2].
  cbn in Hf. subst res2.
  destruct (GatewayV1.isRunning found); cbn; [discriminate|].
  destruct (startProcess sandbox _ w2) as [w3 [proc|e']]; cbn; [discriminate|].
  intros [= ->]. exists (c1 ++ c2). by rewrite ?app_nil_r, <- ?app_assoc.
Qed.

(** X16.  In the short module, when the listing that follows the mount
    step answers and its first entry with a command containing
    'openclaw' is running, [ensureMoltbotGateway] returns normally
    without calling [startProcess]. *)
Theorem v1_idle_when_first_match_running env w w' procs p :
  listProcesses sandbox (final (GatewayV1.mountStep sandbox env w))
  = (w', Normal procs) ->
  find GatewayV1.isMoltbotProcess procs = Some p ->
  status p = "running" ->
  result (GatewayV1.ensureMoltbotGateway sandbox env w) = Normal tt
  /\ count is_startProcess (calls (GatewayV1.ensureMoltbotGateway sandbox env w)) = 0
  /\ final (GatewayV1.ensureMoltbotGateway sandbox env w) = w'.
Proof.
  intros Hl Hf Hs.
  unfold GatewayV1.ensureMoltbotGateway. unfold_monad.
  pose proof (GatewayFacts.v1_mountStep_total sandbox env w) as Hm.
  pose proof (v1_mountStep_calls env w) as Hmc.
  destruct (GatewayV1.mountStep sandbox env w) as [w1 c1 l1 res1].
  cbn in Hm, Hmc, Hl. subst res1.
  unfold GatewayV1.findExistingMoltbotProcess. unfold_monad.
  rewrite Hl. cbn. rewrite Hf. cbn. rewrite Hs. cbn.
  split; [done|]. split; [|done].
  apply GatewayFacts.count_none. intros ev Hin.
  apply elem_of_app in Hin as [Hin|Hin]; [by apply Hmc|].
  in_cases Hin. by subst ev.
Qed.

(** X17.  The [syncToR2] of the short module never throws.  It
    reports success exactly when its one call, the copy, returned
    (whatever the copy printed or its exit code); it reports a failure
    when the bucket name is missing, with no call at all, or when the
    copy threw, with [String(error)] as error text. *)
Theorem v1_sync_is_one_copy env w :
  exists res,
    result (GatewayV1.syncToR2 sandbox env w) = Normal res
    /\ (GatewayV1.success res = true ->
        exists r,
          calls (GatewayV1.syncToR2 sandbox env w)
          = [EvExec "rsync -av /root/.openclaw/ /data/moltbot/openclaw/ 2>&1"
               (Normal r)]
          /\ GatewayV1.error res = None)
    /\ (GatewayV1.success res = false ->
        (truthy_opt (R2_BUCKET_NAME env) = false
         /\ calls (GatewayV1.syncToR2 sandbox env w) = [])
        \/ exists e,
             calls (GatewayV1.syncToR2 sandbox env w)
             = [EvExec "rsync -av /root/.openclaw/ /data/moltbot/openclaw/ 2>&1"
                  (Throw e)]
             /\ GatewayV1.error res = Some (GatewayV1.String_of e)).
Proof.
  unfold GatewayV1.syncToR2. unfold_monad.
  destruct (truthy_opt (R2_BUCKET_NAME env)); cbn.
  - destruct (exec sandbox GatewayV1.rsyncCommand w) as [w1 [r|e]]; cbn.
    + eexists. split; [done|]. split; [by exists r|discriminate].
    + eexists. split; [done|]. split; [discriminate|].
      intros _. right. by exists e.
  - eexists. split; [done|]. split; [discriminate|]. intros _. by left.
Qed.

(** *** r2.ts *)

(** X18.  When the [mountR2Storage] of r2.ts throws, the exception is
    the one its last call to the sandbox raised, and the last line on
    the console is the error line '[R2] R2 mount failed (continuing
    without):' with that exception. *)
Theorem r2_failure_is_logged_and_passed_on env w e :
  result (R2.mountR2Storage sandbox env w) = Throw e ->
  (exists pre ev,
     calls (R2.mountR2Storage sandbox env w) = pre ++ [ev] /\ raisedWith ev e)
  /\ last (console (R2.mountR2Storage sandbox env w))
     = Some (ConsoleError "[R2] R2 mount failed (continuing without):" [ArgExn e]).
Proof.
  unfold R2.mountR2Storage.
  destruct (MOLTBOT_BUCKET env) as [bucket|],
    (truthy_opt (R2_BUCKET_NAME env)); run; try discriminate.
  all: intros [= ->]; split; [|done].
  - by eexists [_], _.
  - by eexists [], _.
Qed.

(** X19.  When the [mountR2Storage] of r2.ts returns normally, either
    the configuration is incomplete and nothing was called, or the
    setup command and the read-write mount of the configured bucket at
    /data/moltbot both returned, and nothing else was called. *)
Theorem r2_normal_return env w :
  result (R2.mountR2Storage sandbox env w) = Normal tt ->
  ((MOLTBOT_BUCKET env = None \/ truthy_opt (R2_BUCKET_NAME env) = false)
   /\ calls (R2.mountR2Storage sandbox env w) = [])
  \/ exists bucket r1,
       MOLTBOT_BUCKET env = Some bucket
       /\ calls (R2.mountR2Storage sandbox env w)
          = [EvExec "mkdir -p /data/moltbot && chmod 777 /data/moltbot" (Normal r1);
             EvMountBucket bucket "/data/moltbot" false (Normal tt)].
Proof.
  unfold R2.mountR2Storage.
  destruct (MOLTBOT_BUCKET env) as [bucket|],
    (truthy_opt (R2_BUCKET_NAME env)) eqn:Hn; run; try discriminate.
  all: intros _.
  - right. repeat match goal with u : unit |- _ => destruct u end.
    by eexists bucket, _.
  - left. auto.
  - left. auto.
  - left. auto.
Qed.

End WithSandbox.
End MoreFacts.

(** ** The further properties at explicit inputs *)

Module MoreScenarios.
Import Gateway Demo MoreDemo.

Lemma find_returns_first_match_witness :
  listProcesses healthy [unrelated; stale; live]
  = ([unrelated; stale; live], Normal [unrelated; stale; live])
  /\ (result (findExistingMoltbotProcess healthy [unrelated; stale; live])
      = Normal None
      <-> Forall (fun p => isMoltbotProcess p = false) [unrelated; stale; live])
  /\ (forall f,
        result (findExistingMoltbotProcess healthy [unrelated; stale; live])
        = Normal (Some f) ->
        exists pre p post,
          [unrelated; stale; live] = pre ++ p :: post
          /\ Forall (fun q => isMoltbotProcess q = false) pre
          /\ isMoltbotProcess p = true
          /\ f = mkFound (pid p) (status p)).
Proof.
  split; [reflexivity|].
  exact (MoreFacts.find_returns_first_match healthy
           [unrelated; stale; live] _ _ eq_refl).
Defined.

(** The entry found in the listing above is the stale one. *)
Example first_match_is_the_stale_entry :
  result (findExistingMoltbotProcess healthy [unrelated; stale; live])
  = Normal (Some (mkFound 17 "completed")).
Proof. vm_compute. reflexivity. Qed.

Lemma launch_env_keys_witness :
  is_Some (openclawEnv fullEnv !! "ANTHROPIC_API_KEY")
  /\ "ANTHROPIC_API_KEY" ∈ launchKeys.
Proof.
  assert (H : is_Some (openclawEnv fullEnv !! "ANTHROPIC_API_KEY")).
  { exists "sk-ant-123". vm_compute. reflexivity. }
  split; [exact H|].
  exact (MoreFacts.launch_env_keys fullEnv "ANTHROPIC_API_KEY" H).
Defined.

Lemma mount_true_witness :
  result (mountR2Storage healthy fullEnv []) = Normal true
  /\ exists bucket r1 r2 r4 r5 r6,
       MOLTBOT_BUCKET fullEnv = Some bucket
       /\ calls (mountR2Storage healthy fullEnv [])
          = [EvExec "mkdir -p /data/moltbot" (Normal r1);
             EvExec "chmod 777 /data/moltbot" (Normal r2);
             EvMountBucket bucket "/data/moltbot" false (Normal tt);
             EvExec "mkdir -p /data/moltbot/openclaw" (Normal r4);
             EvExec "ln -sf /data/moltbot/openclaw /root/.openclaw" (Normal r5);
             EvExec "ln -sf /data/moltbot/openclaw /root/clawd/data" (Normal r6)].
Proof.
  assert (H : result (mountR2Storage healthy fullEnv []) = Normal true)
    by (vm_compute; reflexivity).
  split; [exact H|].
  exact (proj1 (MoreFacts.mount_true_iff_all_steps healthy fullEnv []) H).
Defined.

Lemma mount_call_witness :
  EvMountBucket "MOLTBOT_BUCKET" "/data/moltbot" false (Throw (Error "MountError"))
    ∈ calls (mountR2Storage mountFails fullEnv [])
  /\ MOLTBOT_BUCKET fullEnv = Some "MOLTBOT_BUCKET"
  /\ "/data/moltbot" = "/data/moltbot" /\ false = false
  /\ exists r1 r2 post,
       calls (mountR2Storage mountFails fullEnv [])
       = EvExec "mkdir -p /data/moltbot" (Normal r1)
           :: EvExec "chmod 777 /data/moltbot" (Normal r2)
           :: EvMountBucket "MOLTBOT_BUCKET" "/data/moltbot" false
                (Throw (Error "MountError")) :: post
       /\ count is_mountBucket post = 0.
Proof.
  assert (Hin :
    EvMountBucket "MOLTBOT_BUCKET" "/data/moltbot" false (Throw (Error "MountError"))
      ∈ calls (mountR2Storage mountFails fullEnv [])).
  { apply (list_elem_of_lookup_2 _ 2). vm_compute. reflexivity. }
  split; [exact Hin|].
  exact (MoreFacts.mount_call_is_read_write_after_setup
           mountFails fullEnv [] _ _ _ _ Hin).
Defined.

Lemma launches_once_witness :
  ~ confirmedRunning (listProcesses registryDown [live]).2
  /\ count is_startProcess (calls (ensureMoltbotGateway registryDown fullEnv [live]))
     = 1.
Proof.
  assert (H : ~ confirmedRunning (listProcesses registryDown [live]).2).
  { intros (procs & Heq & _). discriminate Heq. }
  split; [exact H|].
  exact (proj1 (proj2 (MoreFacts.launches_once_unless_running
                         registryDown fullEnv [live])) H).
Defined.

Lemma launch_error_escapes_witness :
  result (ensureMoltbotGateway launchFails noStorageEnv [])
  = Throw (Error "spawn failed")
  /\ ((exists pre,
         calls (ensureMoltbotGateway launchFails noStorageEnv [])
         = pre ++ [EvStartProcess (launchOptions noStorageEnv)
                     (Throw (Error "spawn failed"))])
      \/ (Error "spawn failed" = Error "Gateway failed to start"
          /\ exists pre proc r,
               calls (ensureMoltbotGateway launchFails noStorageEnv [])
               = pre ++ [EvStartProcess (launchOptions noStorageEnv) (Normal proc);
                         EvTimeout 2000; EvListProcesses r]
               /\ ~ confirmedRunning r)).
Proof.
  assert (H : result (ensureMoltbotGateway launchFails noStorageEnv [])
              = Throw (Error "spawn failed")) by (vm_compute; reflexivity).
  split; [exact H|].
  exact (MoreFacts.only_launch_and_verification_errors_escape
           launchFails noStorageEnv [] _ H).
Defined.

Lemma failure_is_logged_witness :
  result (ensureMoltbotGateway slowStart noStorageEnv [])
  = Throw (Error "Gateway failed to start")
  /\ last (console (ensureMoltbotGateway slowStart noStorageEnv []))
     = Some (ConsoleError "[GATEWAY] Failed to start Moltbot:"
               [ArgExn (Error "Gateway failed to start")]).
Proof.
  assert (H : result (ensureMoltbotGateway slowStart noStorageEnv [])
              = Throw (Error "Gateway failed to start"))
    by (vm_compute; reflexivity).
  split; [exact H|].
  exact (MoreFacts.failure_is_logged_before_it_is_thrown
           slowStart noStorageEnv [] _ H).
Defined.

Lemma second_call_witness :
  stableListing healthy
  /\ result (ensureMoltbotGateway healthy fullEnv []) = Normal tt
  /\ exists r,
       calls (ensureMoltbotGateway healthy fullEnv
                (final (ensureMoltbotGateway healthy fullEnv [])))
       = [EvListProcesses r]
       /\ result (ensureMoltbotGateway healthy fullEnv
                    (final (ensureMoltbotGateway healthy fullEnv []))) = Normal tt
       /\ final (ensureMoltbotGateway healthy fullEnv
                   (final (ensureMoltbotGateway healthy fullEnv [])))
          = final (ensureMoltbotGateway healthy fullEnv []).
Proof.
  assert (Hs : stableListing healthy).
  { intros w w' r H. injection H as <- <-. reflexivity. }
  assert (H : result (ensureMoltbotGateway healthy fullEnv []) = Normal tt)
    by (vm_compute; reflexivity).
  split; [exact Hs|]. split; [exact H|].
  exact (MoreFacts.second_call_is_idle healthy fullEnv [] Hs H).
Defined.

Lemma any_exception_fails_witness :
  EvMountBucket "MOLTBOT_BUCKET" "/data/moltbot" false (Throw (Error "MountError"))
    ∈ calls (syncToR2 lostVolume fullEnv [])
  /\ raised (EvMountBucket "MOLTBOT_BUCKET" "/data/moltbot" false
               (Throw (Error "MountError")) : Event string) = true
  /\ exists res,
       result (syncToR2 lostVolume fullEnv []) = Normal res
       /\ success res = false.
Proof.
  assert (Hin :
    EvMountBucket "MOLTBOT_BUCKET" "/data/moltbot" false (Throw (Error "MountError"))
      ∈ calls (syncToR2 lostVolume fullEnv [])).
  { apply (list_elem_of_lookup_2 _ 3). vm_compute. reflexivity. }
  split; [exact Hin|]. split; [reflexivity|].
  exact (MoreFacts.any_exception_fails_the_sync lostVolume fullEnv [] _ Hin eq_refl).
Defined.

Lemma sync_mounts_witness :
  EvMountBucket "MOLTBOT_BUCKET" "/data/moltbot" false (Throw (Error "MountError"))
    ∈ calls (syncToR2 lostVolume fullEnv [])
  /\ exists w1 check,
       exec lostVolume mountCheckCommand [] = (w1, Normal check)
       /\ includes (stdout check) "not mounted" = true.
Proof.
  assert (Hin :
    EvMountBucket "MOLTBOT_BUCKET" "/data/moltbot" false (Throw (Error "MountError"))
      ∈ calls (syncToR2 lostVolume fullEnv [])).
  { apply (list_elem_of_lookup_2 _ 3). vm_compute. reflexivity. }
  split; [exact Hin|].
  exact (MoreFacts.sync_mounts_only_a_lost_volume lostVolume fullEnv [] _ _ _ _ Hin).
Defined.

Lemma copy_is_last_witness :
  EvExec rsyncCommand (Normal (mkExecResult "" "" 0))
    ∈ calls (syncToR2 healthy fullEnv [])
  /\ exists pre r1 r2,
       calls (syncToR2 healthy fullEnv [])
       = pre ++ [EvExec "mkdir -p /root/.openclaw" (Normal r1);
                 EvExec "mkdir -p /data/moltbot/openclaw" (Normal r2);
                 EvExec rsyncCommand (Normal (mkExecResult "" "" 0))].
Proof.
  assert (Hin :
    EvExec rsyncCommand (Normal (mkExecResult "" "" 0))
      ∈ calls (syncToR2 healthy fullEnv [])).
  { apply (list_elem_of_lookup_2 _ 3). vm_compute. reflexivity. }
  split; [exact Hin|].
  exact (MoreFacts.copy_is_the_last_call healthy fullEnv [] _ Hin).
Defined.

Lemma remounted_volume_witness :
  truthy_opt (R2_BUCKET_NAME fullEnv) = true
  /\ exec remountable mountCheckCommand []
     = ([], Normal (mkExecResult ("not mounted" +:+ newline) "" 0))
  /\ includes (stdout (mkExecResult ("not mounted" +:+ newline) "" 0)) "not mounted"
     = true
  /\ result (mountR2Storage remountable fullEnv []) = Normal true
  /\ calls (syncToR2 remountable fullEnv [])
     = EvExec mountCheckCommand
         (Normal (mkExecResult ("not mounted" +:+ newline) "" 0))
         :: calls (mountR2Storage remountable fullEnv [])
         ++ calls (backup remountable (final (mountR2Storage remountable fullEnv [])))
  /\ result (syncToR2 remountable fullEnv [])
     = match result (backup remountable
                       (final (mountR2Storage remountable fullEnv []))) with
       | Normal res => Normal res
       | Throw e => Normal (syncFailed (message_of e))
       end.
Proof.
  assert (H2 : exec remountable mountCheckCommand []
               = ([], Normal (mkExecResult ("not mounted" +:+ newline) "" 0)))
    by (vm_compute; reflexivity).
  assert (H4 : result (mountR2Storage remountable fullEnv []) = Normal true)
    by (vm_compute; reflexivity).
  split; [reflexivity|]. split; [exact H2|]. split; [reflexivity|].
  split; [exact H4|].
  exact (MoreFacts.remounted_volume_is_synced remountable fullEnv [] _ _
           eq_refl H2 eq_refl H4).
Defined.

(** The sync of the witness above succeeds. *)
Example remounted_volume_sync_succeeds :
  result (syncToR2 remountable fullEnv [])
  = Normal (mkSyncResult true None None (Some "2026-01-01T00:00:00.000Z")).
Proof. vm_compute. reflexivity. Qed.

Lemma success_ran_mirror_witness :
  result (syncToR2 healthy fullEnv [])
  = Normal (mkSyncResult true None None (Some "2026-01-01T00:00:00.000Z"))
  /\ success (mkSyncResult true None None (Some "2026-01-01T00:00:00.000Z")) = true
  /\ exists pre r,
       calls (syncToR2 healthy fullEnv [])
       = pre ++ [EvExec "rsync -av --delete /root/.openclaw/ /data/moltbot/openclaw/ 2>&1"
                   (Normal r)].
Proof.
  assert (H : result (syncToR2 healthy fullEnv [])
              = Normal (mkSyncResult true None None (Some "2026-01-01T00:00:00.000Z")))
    by (vm_compute; reflexivity).
  split; [exact H|]. split; [reflexivity|].
  exact (GatewayFacts.success_ran_mirror healthy fullEnv [] _ H eq_refl).
Defined.

Lemma sync_failed_details_witness :
  result (syncToR2 (sandbox (rsyncStderr "rsync: connection unexpectedly closed")
                      (Normal tt) "running") fullEnv [])
  = Normal (mkSyncResult false (Some "Sync failed")
              (Some "rsync: connection unexpectedly closed") None)
  /\ error (mkSyncResult false (Some "Sync failed")
              (Some "rsync: connection unexpectedly closed") None)
     = Some "Sync failed"
  /\ ((exists pre r,
         calls (syncToR2 (sandbox (rsyncStderr "rsync: connection unexpectedly closed")
                            (Normal tt) "running") fullEnv [])
         = pre ++ [EvExec rsyncCommand (Normal r)]
         /\ isRsyncError r = true
         /\ details (mkSyncResult false (Some "Sync failed")
                       (Some "rsync: connection unexpectedly closed") None)
            = Some (stderr r))
      \/ (exists pre ev e,
            calls (syncToR2 (sandbox (rsyncStderr "rsync: connection unexpectedly closed")
                               (Normal tt) "running") fullEnv [])
            = pre ++ [ev]
            /\ raisedWith ev e
            /\ details (mkSyncResult false (Some "Sync failed")
                          (Some "rsync: connection unexpectedly closed") None)
               = Some (message_of e))).
Proof.
  assert (H :
    result (syncToR2 (sandbox (rsyncStderr "rsync: connection unexpectedly closed")
                        (Normal tt) "running") fullEnv [])
    = Normal (mkSyncResult false (Some "Sync failed")
                (Some "rsync: connection unexpectedly closed") None))
    by (vm_compute; reflexivity).
  split; [exact H|]. split; [reflexivity|].
  exact (MoreFacts.sync_failed_details _ fullEnv [] _ H eq_refl).
Defined.

Lemma v1_launch_error_witness :
  result (GatewayV1.ensureMoltbotGateway launchFails fullEnv [])
  = Throw (Error "spawn failed")
  /\ exists pre,
       calls (GatewayV1.ensureMoltbotGateway launchFails fullEnv [])
       = pre ++ [EvStartProcess
                   (mkStartOptions ["/usr/local/bin/start-openclaw.sh"]
                      (GatewayV1.launchEnv fullEnv) None)
                   (Throw (Error "spawn failed"))].
Proof.
  assert (H : result (GatewayV1.ensureMoltbotGateway launchFails fullEnv [])
              = Throw (Error "spawn failed")) by (vm_compute; reflexivity).
  split; [exact H|].
  exact (MoreFacts.v1_only_launch_errors_escape launchFails fullEnv [] _ H).
Defined.

Lemma v1_idle_witness :
  listProcesses healthy (final (GatewayV1.mountStep healthy fullEnv [unrelated; live]))
  = ([unrelated; live], Normal [unrelated; live])
  /\ find GatewayV1.isMoltbotProcess [unrelated; live] = Some live
  /\ status live = "running"
  /\ result (GatewayV1.ensureMoltbotGateway healthy fullEnv [unrelated; live])
     = Normal tt
  /\ count is_startProcess
       (calls (GatewayV1.ensureMoltbotGateway healthy fullEnv [unrelated; live])) = 0
  /\ final (GatewayV1.ensureMoltbotGateway healthy fullEnv [unrelated; live])
     = [unrelated; live].
Proof.
  assert (Hl : listProcesses healthy
                 (final (GatewayV1.mountStep healthy fullEnv [unrelated; live]))
               = ([unrelated; live], Normal [unrelated; live]))
    by (vm_compute; reflexivity).
  split; [exact Hl|]. split; [reflexivity|]. split; [reflexivity|].
  exact (MoreFacts.v1_idle_when_first_match_running healthy fullEnv
           [unrelated; live] _ _ live Hl eq_refl eq_refl).
Defined.

Lemma r2_failure_witness :
  result (R2.mountR2Storage mountFails fullEnv []) = Throw (Error "MountError")
  /\ (exists pre ev,
        calls (R2.mountR2Storage mountFails fullEnv []) = pre ++ [ev]
        /\ raisedWith ev (Error "MountError"))
  /\ last (console (R2.mountR2Storage mountFails fullEnv []))
     = Some (ConsoleError "[R2] R2 mount failed (continuing without):"
               [ArgExn (Error "MountError")]).
Proof.
  assert (H : result (R2.mountR2Storage mountFails fullEnv [])
              = Throw (Error "MountError")) by (vm_compute; reflexivity).
  split; [exact H|].
  exact (MoreFacts.r2_failure_is_logged_and_passed_on mountFails fullEnv [] _ H).
Defined.

Lemma r2_normal_return_witness :
  result (R2.mountR2Storage healthy fullEnv []) = Normal tt
  /\ (((MOLTBOT_BUCKET fullEnv = None \/ truthy_opt (R2_BUCKET_NAME fullEnv) = false)
       /\ calls (R2.mountR2Storage healthy fullEnv []) = [])
      \/ exists bucket r1,
           MOLTBOT_BUCKET fullEnv = Some bucket
           /\ calls (R2.mountR2Storage healthy fullEnv [])
              = [EvExec "mkdir -p /data/moltbot && chmod 777 /data/moltbot"
                   (Normal r1);
                 EvMountBucket bucket "/data/moltbot" false (Normal tt)]).
Proof.
  assert (H : result (R2.mountR2Storage healthy fullEnv []) = Normal tt)
    by (vm_compute; reflexivity).
  split; [exact H|].
  exact (MoreFacts.r2_normal_return healthy fullEnv [] H).
Defined.

End MoreScenarios.

(** ** The mirror *)

Module MirrorFacts.
Section WithSandbox.
Context {W R2Bucket : Type}.
Variable sandbox : Sandbox W R2Bucket.
Variables localFiles durableFiles : W -> list string.
Import Gateway.
Implicit Types (env : MoltbotEnv R2Bucket) (w : W).

#[local] Arguments mountR2Storage : simpl never.
#[local] Arguments backup : simpl never.




End WithSandbox.
End MirrorFacts.

(** ** The check and the mirror at explicit inputs *)

Module Findings.
Import Gateway Demo.

(** C1.  The registry lists a stale gateway entry before the running
    gateway.  A gateway is running, yet [ensureMoltbotGateway] mounts
    the volume, launches a second gateway and then throws
    [Error('Gateway failed to start')], leaving two gateways running.
    With the stale entry alone the new gateway does start and the
    function throws all the same. *)
Theorem stale_entry_duplicates_the_gateway :
  someGatewayRunning [stale; live]
  /\ result (ensureMoltbotGateway healthy fullEnv [stale; live])
     = Throw (Error "Gateway failed to start")
  /\ count is_mountBucket (calls (ensureMoltbotGateway healthy fullEnv [stale; live]))
     = 1
  /\ count is_startProcess (calls (ensureMoltbotGateway healthy fullEnv [stale; live]))
     = 1
  /\ final (ensureMoltbotGateway healthy fullEnv [stale; live])
     = [stale; live; launched (launchOptions fullEnv) "running"]
  /\ result (ensureMoltbotGateway healthy fullEnv [stale])
     = Throw (Error "Gateway failed to start")
  /\ final (ensureMoltbotGateway healthy fullEnv [stale])
     = [stale; launched (launchOptions fullEnv) "running"].
Proof.
  split.
  { exists live. split; [|done]. apply list_elem_of_further, list_elem_of_here. }
  split_and!; vm_compute; reflexivity.
Qed.




(** After the sync of the witness above, b.txt is gone from the
    volume. *)
Example deleted_file_is_removed :
  Files.durableDir
    (final (syncToR2 (Files.sandbox 0) fullEnv Files.afterLocalDelete))
  = ["a.txt"].
Proof. vm_compute. reflexivity. Qed.

End Findings.
